(** * Conversation reconciliation engine: a shallow embedding

    The development follows the two generations of the [Chat] component
    (manual replay and server-delegated regeneration), the message
    conversion helpers and the check constraints of the [parts] table. *)

From Stdlib Require Import ZArith Lia Bool.
From stdpp Require Import base list strings.

Local Open Scope Z_scope.

(** ** JavaScript values the code relies on *)

(** A [Date] is its time value in milliseconds since the epoch (only valid
    dates are represented).  [toISOString] is injective on those, so an ISO
    timestamp is represented by the instant it denotes. *)
Definition Date := Z.

Inductive ISOString := ISO (ms : Z).

Definition toISOString (d : Date) : ISOString := ISO d.

(** [new Date(0)] *)
Definition epoch : Date := 0.

#[global] Instance ISOString_eq_dec : EqDecision ISOString.
Proof. solve_decision. Defined.

(** JavaScript truthiness of a string that may be [undefined]. *)
Definition truthy (s : option string) : bool :=
  match s with
  | Some s => negb (String.eqb s "")
  | None => false
  end.

(** [a || b] on such values. *)
Definition or_else (a b : option string) : option string :=
  if truthy a then a else b.

(** ** Array primitives, as ECMAScript defines them *)

Section Arrays.
Context {A : Type}.

(** [Array.prototype.find] *)
Fixpoint find (p : A -> bool) (l : list A) : option A :=
  match l with
  | [] => None
  | x :: l' => if p x then Some x else find p l'
  end.

Fixpoint findIndex_from (k : Z) (p : A -> bool) (l : list A) : Z :=
  match l with
  | [] => -1
  | x :: l' => if p x then k else findIndex_from (k + 1) p l'
  end.

(** [Array.prototype.findIndex]: the first index whose element satisfies
    the predicate, [-1] when there is none. *)
Definition findIndex (p : A -> bool) (l : list A) : Z :=
  findIndex_from 0 p l.

(** [arr.slice(0, e)]: a negative end counts from the end of the array. *)
Definition slice0 (l : list A) (e : Z) : list A :=
  if e <? 0
  then take (Z.to_nat (Z.max (Z.of_nat (length l) + e) 0)) l
  else take (Z.to_nat e) l.

(** [arr[i]], [undefined] out of range. *)
Definition at_index (l : list A) (i : Z) : option A :=
  if i <? 0 then None else l !! Z.to_nat i.

(** [arr.at(-1)] and [arr[arr.length - 1]] *)
Definition last_elem (l : list A) : option A :=
  at_index l (Z.of_nat (length l) - 1).
End Arrays.

(** [Array.prototype.join]: the separator goes before every element but the
    first; [undefined] elements contribute the empty string. *)
Definition join_step (sep : string) (acc : string * bool) (x : option string)
  : string * bool :=
  let '(r, started) := acc in
  let r := if started then r +:+ sep else r in
  (r +:+ default "" x, true).

Definition join (sep : string) (l : list (option string)) : string :=
  fst (fold_left (join_step sep) l ("", false)).

(** ** Messages and parts *)

(** A message part: the [type] tag and the [text] property, absent on parts
    that are not text. *)
Record Part := mkPart {
  part_type : string;
  part_text : option string
}.

Definition text_part (t : string) : Part :=
  {| part_type := "text"; part_text := Some t |}.

Definition isTextPart (p : Part) : bool := String.eqb (part_type p) "text".

(** A UI message.  [msg_content] is the plain-content field of the earlier
    SDK generation, [msg_parts] and [msg_createdAt] are optional there. *)
Record Message := mkMessage {
  msg_id : string;
  msg_role : string;
  msg_content : option string;
  msg_parts : option (list Part);
  msg_createdAt : option Date
}.

Definition isUser (m : Message) : bool := String.eqb (msg_role m) "user".
Definition isAssistant (m : Message) : bool :=
  String.eqb (msg_role m) "assistant".
Definition hasId (i : string) (m : Message) : bool := String.eqb (msg_id m) i.

(** [{ ...m, parts: ps }] *)
Definition with_parts (m : Message) (ps : list Part) : Message :=
  {| msg_id := msg_id m;
     msg_role := msg_role m;
     msg_content := msg_content m;
     msg_parts := Some ps;
     msg_createdAt := msg_createdAt m |}.

(** ** [getTextFromParts] *)

Definition getTextFromParts (parts : option (list Part)) : string :=
  match parts with
  | Some ps => join " " (map part_text (List.filter isTextPart ps))
  | None => ""
  end.

(** ** Section builder *)

Record ChatSection := mkSection {
  sec_id : string;
  userMessage : Message;
  assistantMessages : list Message
}.

(** [currentSection.assistantMessages.push(message)] *)
Definition push_assistant (s : ChatSection) (m : Message) : ChatSection :=
  {| sec_id := sec_id s;
     userMessage := userMessage s;
     assistantMessages := assistantMessages s ++ [m] |}.

(** [if (currentSection) result.push(currentSection)] *)
Definition flush (result : list ChatSection) (cur : option ChatSection)
  : list ChatSection :=
  match cur with
  | Some s => result ++ [s]
  | None => result
  end.

(** One iteration of the loop over [messages]; the state is [result] and
    [currentSection]. *)
Definition sections_step (st : list ChatSection * option ChatSection)
    (message : Message) : list ChatSection * option ChatSection :=
  let '(result, currentSection) := st in
  if isUser message then
    (flush result currentSection,
     Some {| sec_id := msg_id message;
             userMessage := message;
             assistantMessages := [] |})
  else
    match currentSection with
    | Some s =>
        if isAssistant message
        then (result, Some (push_assistant s message))
        else st
    | None => st
    end.

Definition buildSections (messages : list Message) : list ChatSection :=
  let '(result, currentSection) := fold_left sections_step messages ([], None) in
  flush result currentSection.

(** ** The effects of the chat handlers

    A handler runs against the chat hook's message store, the id generator
    and the clock, and talks to the toast and console sinks, to the
    durable store and to the transport.  Remote calls are answered by the
    environment. *)

Inductive Outcome :=
| Resolved
| Rejected (message : string).

Inductive Event :=
| ToastError (msg : string)
| ConsoleError (msg : string) (detail : option string)
| SetMessages (next : list Message)
| DeleteTrailingMessages (chatId : string) (pivot : ISOString)
| Reload (log : list Message)
| Regenerate (messageId : string) (log : list Message).

Record Env := mkEnv {
  (** the k-th identifier handed out by the generator *)
  env_generateId : nat -> string;
  env_deleteTrailingMessages : string -> ISOString -> Outcome;
  env_reload : list Message -> Outcome;
  env_regenerate : string -> list Message -> Outcome
}.

Record World := mkWorld {
  w_messages : list Message;   (* the hook's current log *)
  w_generated : nat;           (* identifiers handed out so far *)
  w_now : Date;                (* what [new Date()] reads *)
  w_events : list Event        (* effects issued, oldest first *)
}.

Inductive Res (A : Type) :=
| Ok (a : A)
| Throw (error : string).
Arguments Ok {A} a.
Arguments Throw {A} error.

Definition M (A : Type) : Type := World -> Res A * World.

Definition ret {A} (a : A) : M A := fun w => (Ok a, w).

Definition bind {A B} (c : M A) (k : A -> M B) : M B :=
  fun w =>
    match c w with
    | (Ok a, w') => k a w'
    | (Throw e, w') => (Throw e, w')
    end.

Definition throw {A} (e : string) : M A := fun w => (Throw e, w).

(** [try { body } catch (error) { handler }] *)
Definition try_catch {A} (body : M A) (handler : string -> M A) : M A :=
  fun w =>
    match body w with
    | (Ok a, w') => (Ok a, w')
    | (Throw e, w') => handler e w'
    end.

Declare Scope chat_scope.
Delimit Scope chat_scope with chat.
Notation "x <- c ;; k" := (bind c (fun x => k))
  (at level 100, c at next level, right associativity) : chat_scope.
Notation "c ;; k" := (bind c (fun _ => k))
  (at level 100, right associativity) : chat_scope.
Local Open Scope chat_scope.

Definition emit (e : Event) : M unit :=
  fun w =>
    (Ok tt,
     {| w_messages := w_messages w;
        w_generated := w_generated w;
        w_now := w_now w;
        w_events := w_events w ++ [e] |}).

Definition toast_error (msg : string) : M unit := emit (ToastError msg).

Definition console_error (msg : string) (detail : option string) : M unit :=
  emit (ConsoleError msg detail).

Definition read_messages : M (list Message) := fun w => (Ok (w_messages w), w).

Definition write_messages (next : list Message) : M unit :=
  fun w =>
    (Ok tt,
     {| w_messages := next;
        w_generated := w_generated w;
        w_now := w_now w;
        w_events := w_events w |}).

(** [new Date()] *)
Definition new_Date : M Date := fun w => (Ok (w_now w), w).

(** [await p]: a rejected promise throws its error message. *)
Definition await (o : Outcome) : M unit :=
  match o with
  | Resolved => ret tt
  | Rejected e => throw e
  end.

Section Handlers.
Variable env : Env.

(** [generateUUID()] / [generateId()] *)
Definition generateId : M string :=
  fun w =>
    (Ok (env_generateId env (w_generated w)),
     {| w_messages := w_messages w;
        w_generated := S (w_generated w);
        w_now := w_now w;
        w_events := w_events w |}).

(** [setMessages(prevMessages => ...)]: the updater runs on the hook's
    current log and its result replaces it. *)
Definition setMessages (updater : list Message -> M (list Message)) : M unit :=
  prevMessages <- read_messages ;;
  next <- updater prevMessages ;;
  write_messages next ;;
  emit (SetMessages next).

Definition deleteTrailingMessages (chatId : string) (pivot : ISOString)
  : M unit :=
  emit (DeleteTrailingMessages chatId pivot) ;;
  await (env_deleteTrailingMessages env chatId pivot).

(** [reload()]: the request is built from the log as it stands.  What the
    transport later streams into the log is not part of the handlers. *)
Definition reload : M unit :=
  log <- read_messages ;;
  emit (Reload log) ;;
  await (env_reload env log).

(** [regenerate({ messageId })] *)
Definition regenerate (messageId : string) : M unit :=
  log <- read_messages ;;
  emit (Regenerate messageId log) ;;
  await (env_regenerate env messageId log).
End Handlers.

(** [createdAt?.toISOString() ?? new Date(0).toISOString()] *)
Definition pivot_of (m : Message) : ISOString :=
  match msg_createdAt m with
  | Some d => toISOString d
  | None => toISOString epoch
  end.

(** The message both manual handlers splice in. *)
Definition new_user_message (env : Env) (text : string) : M Message :=
  i <- generateId env ;;
  d <- new_Date ;;
  ret {| msg_id := i;
         msg_role := "user";
         msg_content := Some text;
         msg_parts := Some [text_part text];
         msg_createdAt := Some d |}.

(** ** Manual replay strategy

    The component that truncates the local log itself, asks the durable
    store to drop the trailing records and then reloads. *)

Module Manual.
Section Chat.
Variable env : Env.
(** the [id] prop *)
Variable id : string.
(** the [messages] of the render the handler was created in *)
Variable messages : list Message.

Definition edit_updater (editedMessageId newContentText : string)
    (prevMessages : list Message) : M (list Message) :=
  let messageIndex := findIndex (hasId editedMessageId) prevMessages in
  let messagesBeforeEdited :=
    if negb (messageIndex =? -1)
    then slice0 prevMessages messageIndex
    else prevMessages in
  newUIMessage <- new_user_message env newContentText ;;
  ret (messagesBeforeEdited ++ [newUIMessage])%list.

Definition handleUpdateAndReloadMessage
    (editedMessageId newContentText : string) : M unit :=
  if negb (truthy (Some id)) then
    toast_error "Chat ID is missing." ;;
    console_error
      "handleUpdateAndReloadMessage: chatId (id prop) is undefined." None
  else
    match find (hasId editedMessageId) messages with
    | None =>
        toast_error "Original message not found to edit locally." ;;
        console_error
          "handleUpdateAndReloadMessage: Pivot message not found for timestamp."
          None
    | Some pivotMessage =>
        let pivotTimestamp := pivot_of pivotMessage in
        try_catch
          (setMessages (edit_updater editedMessageId newContentText) ;;
           deleteTrailingMessages env id pivotTimestamp ;;
           reload env)
          (fun error =>
             console_error "Error during message edit and reload process:"
               (Some error) ;;
             toast_error ("Error processing edited message: " +:+ error))
    end.

(** [parts?.filter(p => p.type === 'text').map(p => p.text).join('')
     || content || ''] *)
Definition contentToResend_of (targetUserMessage : Message) : string :=
  default ""
    (or_else
       (or_else
          (option_map
             (fun ps => join "" (map part_text (List.filter isTextPart ps)))
             (msg_parts targetUserMessage))
          (msg_content targetUserMessage))
       (Some "")).

Definition reload_updater (targetUserMessageIndex : Z)
    (contentToResend : string) (prevMessages : list Message)
  : M (list Message) :=
  let messagesBeforeTarget := slice0 prevMessages targetUserMessageIndex in
  newResentUserMessage <- new_user_message env contentToResend ;;
  ret (messagesBeforeTarget ++ [newResentUserMessage])%list.

Definition handleReloadFrom (reloadFromFollowerMessageId : string) : M unit :=
  if negb (truthy (Some id)) then
    toast_error "Chat ID is missing for reload."
  else
    let followerMessageIndex :=
      findIndex (hasId reloadFromFollowerMessageId) messages in
    if followerMessageIndex <? 1 then
      toast_error
        "Cannot reload: No preceding message found or message is the first." ;;
      console_error
        ("handleReloadFrom: No message found before id "
           +:+ reloadFromFollowerMessageId
           +:+ " or it is the first message.") None
    else
      let targetUserMessageIndex := followerMessageIndex - 1 in
      match at_index messages targetUserMessageIndex with
      | None => throw "TypeError"  (* not reachable: the index was found *)
      | Some targetUserMessage =>
          if negb (isUser targetUserMessage) then
            toast_error
              "Cannot reload: The message to resend must be a user message." ;;
            console_error
              ("handleReloadFrom: Preceding message (id: "
                 +:+ msg_id targetUserMessage
                 +:+ ") is not a user message.") None
          else
            match at_index messages followerMessageIndex with
            | None => throw "TypeError"  (* not reachable either *)
            | Some followerMessage =>
                let deletionTimestamp := pivot_of followerMessage in
                let contentToResend := contentToResend_of targetUserMessage in
                try_catch
                  (setMessages
                     (reload_updater targetUserMessageIndex contentToResend) ;;
                   deleteTrailingMessages env id deletionTimestamp ;;
                   reload env)
                  (fun error =>
                     console_error
                       ("Error during reload from message preceding "
                          +:+ reloadFromFollowerMessageId +:+ ":")
                       (Some error) ;;
                     toast_error ("Failed to reload conversation: " +:+ error))
            end
      end.
End Chat.
End Manual.

(** ** Server-delegated strategy

    The component that edits the target in place and leaves truncation and
    regeneration to [regenerate]. *)

Record RequestBody := mkBody {
  body_trigger : string;
  body_chatId : string;
  body_messageId : option string;
  body_message : option Message
}.

Module Delegated.
Section Chat.
Variable env : Env.
Variable id : string.

(** [m => m.id === messageId], where [messageId] may be [undefined] *)
Definition idIs (messageId : option string) (m : Message) : bool :=
  match messageId with
  | Some i => hasId i m
  | None => false
  end.

Definition prepareSendMessagesRequest (messages : list Message)
    (trigger : string) (messageId : option string) : RequestBody :=
  if String.eqb trigger "regenerate-assistant-message" then
    let messageToRegenerate := find (idIs messageId) messages in
    {| body_trigger := "regenerate-assistant-message";
       body_chatId := id;
       body_messageId := messageId;
       body_message :=
         match messageToRegenerate with
         | Some m => if isUser m then Some m else None
         | None => None
         end |}
  else
    {| body_trigger := "submit-user-message";
       body_chatId := id;
       body_messageId := messageId;
       body_message := last_elem messages |}.

Definition edit_updater (editedMessageId newContentText : string)
    (prevMessages : list Message) : M (list Message) :=
  let messageIndex := findIndex (hasId editedMessageId) prevMessages in
  if messageIndex =? -1 then ret prevMessages
  else
    match at_index prevMessages messageIndex with
    | Some target =>
        ret (<[Z.to_nat messageIndex :=
                 with_parts target [text_part newContentText]]> prevMessages)
    | None => ret prevMessages  (* not reachable: the index was found *)
    end.

Definition handleUpdateAndReloadMessage
    (editedMessageId newContentText : string) : M unit :=
  if negb (truthy (Some id)) then
    toast_error "Chat ID is missing." ;;
    console_error
      "handleUpdateAndReloadMessage: chatId (id prop) is undefined." None
  else
    try_catch
      (setMessages (edit_updater editedMessageId newContentText) ;;
       regenerate env editedMessageId)
      (fun error =>
         console_error "Error during message edit and reload process:"
           (Some error) ;;
         toast_error ("Error processing edited message: " +:+ error)).

Definition handleReloadFrom (reloadFromFollowerMessageId : string) : M unit :=
  if negb (truthy (Some id)) then
    toast_error "Chat ID is missing for reload."
  else
    try_catch
      (regenerate env reloadFromFollowerMessageId)
      (fun error =>
         console_error
           ("Error during reload from message "
              +:+ reloadFromFollowerMessageId +:+ ":") (Some error) ;;
         toast_error ("Failed to reload conversation: " +:+ error)).
End Chat.
End Delegated.

(** ** The [parts] table and its check constraints *)

(** A row of [parts], with the columns that are strings; the columns typed
    [json] carry no constraint.  Columns declared [notNull] are not
    optional. *)
Record PartRow := mkPartRow {
  row_id : string;
  row_messageId : string;
  row_order : Z;
  row_type : string;
  text_text : option string;
  reasoning_text : option string;
  file_mediaType : option string;
  file_filename : option string;
  file_url : option string;
  source_url_sourceId : option string;
  source_url_url : option string;
  source_url_title : option string;
  source_document_sourceId : option string;
  source_document_mediaType : option string;
  source_document_title : option string;
  source_document_filename : option string;
  source_document_url : option string;
  source_document_snippet : option string;
  tool_toolCallId : option string;
  tool_state : option string;
  tool_errorText : option string;
  data_prefix : option string;
  data_id : option string
}.

(** [c IS NOT NULL] *)
Definition is_not_null (c : option string) : bool :=
  match c with Some _ => true | None => false end.

(** [type LIKE 'tool-%'] *)
Definition like_tool (t : string) : bool := String.prefix "tool-" t.

Definition tool_states : list string :=
  ["input-streaming"; "input-available"; "output-available"; "output-error"].

(** [s IN (...)] for a value that is not null *)
Definition sql_in (s : string) (l : list string) : bool :=
  existsb (String.eqb s) l.

(** The five checks.  [type] is never null, so none of them evaluates to
    unknown. *)
Definition text_text_required (r : PartRow) : bool :=
  negb (String.eqb (row_type r) "text") || is_not_null (text_text r).

Definition reasoning_text_required (r : PartRow) : bool :=
  negb (String.eqb (row_type r) "reasoning") || is_not_null (reasoning_text r).

Definition file_fields_required (r : PartRow) : bool :=
  negb (String.eqb (row_type r) "file")
  || (is_not_null (file_mediaType r)
      && is_not_null (file_filename r)
      && is_not_null (file_url r)).

Definition tool_state_valid (r : PartRow) : bool :=
  match tool_state r with
  | None => true
  | Some s => sql_in s tool_states
  end.

Definition tool_fields_required (r : PartRow) : bool :=
  negb (like_tool (row_type r))
  || (is_not_null (tool_toolCallId r) && is_not_null (tool_state r)).

(** A row is stored only when every check holds. *)
Definition accepted (r : PartRow) : bool :=
  text_text_required r
  && reasoning_text_required r
  && file_fields_required r
  && tool_state_valid r
  && tool_fields_required r.

(** ** Conversion of SDK messages *)

(** The [content] of an SDK message. *)
Inductive Content :=
| CNull
| CUndefined
| CString (s : string)
| CArray (parts : list Part)
| COther (object : string).   (* any other value, kept opaque *)

Record CoreMessage := mkCoreMessage {
  cm_role : string;
  cm_content : Content
}.

(** [{ text: ... }] *)
Record DBPart := mkDBPart { db_text : option string }.

Record DatabaseMessageInput := mkDBInput {
  db_role : string;
  db_parts : list DBPart
}.

Section Conversion.
(** [JSON.stringify] *)
Variable JSON_stringify : Content -> string.

Definition convertMessageForDB (message : CoreMessage) : DatabaseMessageInput :=
  let parts :=
    match cm_content message with
    | CNull | CUndefined => []
    | CString s => [ {| db_text := Some s |} ]
    | CArray content =>
        let textParts :=
          map (fun part => {| db_text := part_text part |})
              (List.filter isTextPart content) in
        if (0 <? Z.of_nat (length textParts))
        then textParts
        else [ {| db_text := Some (JSON_stringify (CArray content)) |} ]
    | COther o => [ {| db_text := Some (JSON_stringify (COther o)) |} ]
    end in
  {| db_role := cm_role message; db_parts := parts |}.

Definition convertMessagesForDB (messages : list CoreMessage)
  : list DatabaseMessageInput :=
  map convertMessageForDB messages.
End Conversion.

(** [s.substring(0, n)]: the end index is clamped to [0 .. s.length].  A
    string is the sequence of its code units, and [String.length] counts
    them as [s.length] does. *)
Definition substring0 (s : string) (n : Z) : string :=
  String.substring 0 (Z.to_nat n) s.

(** [!content] *)
Definition content_falsy (c : Content) : bool :=
  match c with
  | CNull | CUndefined => true
  | CString s => String.eqb s ""
  | CArray _ | COther _ => false
  end.

(** [maxLength = 100] *)
Definition default_maxLength : Z := 100.

Definition extractTitleFromMessage (message : CoreMessage)
    (maxLength : option Z) : string :=
  let maxLength := default default_maxLength maxLength in
  if content_falsy (cm_content message) then "New Chat"
  else
    match cm_content message with
    | CString s => substring0 s maxLength
    | CArray content =>
        match find isTextPart content with
        | Some textPart =>
            match part_text textPart with
            | Some t => substring0 t maxLength
            | None => "New Chat"
            end
        | None => "New Chat"
        end
    | _ => "New Chat"
    end.

(** ** Reading a run of a handler *)

Definition initial (log : list Message) (now : Date) : World :=
  {| w_messages := log; w_generated := 0%nat; w_now := now; w_events := [] |}.

(** The world a handler leaves behind. *)
Definition after {A} (c : M A) (w : World) : World := snd (c w).

Definition is_toast (e : Event) : bool :=
  match e with ToastError _ => true | _ => false end.

Definition is_mutation (e : Event) : bool :=
  match e with SetMessages _ => true | _ => false end.

Definition is_truncation (e : Event) : bool :=
  match e with DeleteTrailingMessages _ _ => true | _ => false end.

Definition is_transport (e : Event) : bool :=
  match e with Reload _ | Regenerate _ _ => true | _ => false end.

Definition toasts (t : list Event) : list Event := List.filter is_toast t.
Definition mutations (t : list Event) : list Event := List.filter is_mutation t.
Definition truncations (t : list Event) : list Event :=
  List.filter is_truncation t.
Definition transports (t : list Event) : list Event :=
  List.filter is_transport t.

(** ** The section view, as the data model words it

    A Section is one user message plus the run of assistant messages that
    follow it, up to the next user message; whatever precedes the first
    user message is not in the view. *)

Fixpoint until_next_user (ms : list Message) : list Message :=
  match ms with
  | [] => []
  | m :: ms' => if isUser m then [] else m :: until_next_user ms'
  end.

Fixpoint from_next_user (ms : list Message) : list Message :=
  match ms with
  | [] => []
  | m :: ms' => if isUser m then ms else from_next_user ms'
  end.

Fixpoint sections_of (ms : list Message) : list ChatSection :=
  match ms with
  | [] => []
  | m :: ms' =>
      if isUser m
      then {| sec_id := msg_id m;
              userMessage := m;
              assistantMessages :=
                List.filter isAssistant (until_next_user ms') |}
           :: sections_of ms'
      else sections_of ms'
  end.

(** The messages a list of sections shows, in order. *)
Definition shown (secs : list ChatSection) : list Message :=
  flat_map (fun s => userMessage s :: assistantMessages s) secs.

Definition well_formed_section (s : ChatSection) : Prop :=
  sec_id s = msg_id (userMessage s)
  /\ isUser (userMessage s) = true
  /\ Forall (fun a => isAssistant a = true) (assistantMessages s).

(** What [join] has still to add once the first element went in. *)
Definition join_tail (sep : string) (l : list (option string)) : string :=
  fold_right (fun x acc => sep +:+ default "" x +:+ acc) "" l.

(** The loop state read as the final answer, and an open section with more
    assistant messages pushed. *)
Definition finish (st : list ChatSection * option ChatSection)
  : list ChatSection := flush (fst st) (snd st).

Definition extend (s : ChatSection) (l : list Message) : ChatSection :=
  {| sec_id := sec_id s;
     userMessage := userMessage s;
     assistantMessages := assistantMessages s ++ l |}.

Definition isShown (m : Message) : bool := isUser m || isAssistant m.

(** Sample messages for the examples. *)
Definition sample (i r : string) (t : Z) : Message :=
  {| msg_id := i;
     msg_role := r;
     msg_content := Some i;
     msg_parts := Some [text_part i];
     msg_createdAt := Some t |}.

Definition U1 : Message := sample "u1" "user" 10.
Definition A1 : Message := sample "a1" "assistant" 20.
Definition U2 : Message := sample "u2" "user" 30.
Definition A2 : Message := sample "a2" "assistant" 40.
Definition S0 : Message := sample "s0" "system" 5.

(** A sample environment: the generator hands out [n0], [n1], ...; the
    remote calls settle as given. *)
Definition sample_env (del rel reg : Outcome) : Env :=
  {| env_generateId := fun k => match k with O => "n0" | _ => "n1" end;
     env_deleteTrailingMessages := fun _ _ => del;
     env_reload := fun _ => rel;
     env_regenerate := fun _ _ => reg |}.

(** ** The shape of a reconciliation run *)

(** What the [catch] block of a handler emits. *)
Definition report (console toast error : string) : list Event :=
  [ConsoleError console (Some error); ToastError (toast +:+ error)].

(** The remote half of a manual reconciliation, after the local edit. *)
Definition remote_steps (env : Env) (id : string) (pivot : ISOString)
    (edited : list Message) (console toast : string) : list Event :=
  DeleteTrailingMessages id pivot
  :: match env_deleteTrailingMessages env id pivot with
     | Rejected e => report console toast e
     | Resolved =>
         Reload edited
         :: match env_reload env edited with
            | Resolved => []
            | Rejected e => report console toast e
            end
     end.

(** The user message a manual handler creates first in a fresh run. *)
Definition fresh_user_message (env : Env) (now : Date) (text : string)
  : Message :=
  {| msg_id := env_generateId env 0;
     msg_role := "user";
     msg_content := Some text;
     msg_parts := Some [text_part text];
     msg_createdAt := Some now |}.

(** The world a manual handler is in once its local update is done, in a
    fresh run: the log is the edited one, one identifier has been handed
    out, and the update is the only event so far. *)
Definition edited_world (now : Date) (edited : list Message) : World :=
  {| w_messages := edited;
     w_generated := 1;
     w_now := now;
     w_events := [SetMessages edited] |}.

(** How a manual reconciliation that got past its checks ends, for a given
    edited log and pivot: the log is the edited one, and the events are the
    local update, then the truncation request for that pivot, then, only
    when the truncation resolved, the reload request; a rejected remote
    step is followed by the console and toast report and by nothing
    else. *)
Definition manual_run (env : Env) (id : string) (edited : list Message)
    (pivot : ISOString) (console toast : string) (w : World) : Prop :=
  w_messages w = edited
  /\ w_generated w = 1%nat
  /\ match env_deleteTrailingMessages env id pivot with
     | Rejected e =>
         w_events w
         = [SetMessages edited; DeleteTrailingMessages id pivot;
            ConsoleError console (Some e); ToastError (toast +:+ e)]
     | Resolved =>
         match env_reload env edited with
         | Resolved =>
             w_events w
             = [SetMessages edited; DeleteTrailingMessages id pivot;
                Reload edited]
         | Rejected e =>
             w_events w
             = [SetMessages edited; DeleteTrailingMessages id pivot;
                Reload edited;
                ConsoleError console (Some e); ToastError (toast +:+ e)]
         end
     end.

(** The same for a server-delegated edit: the local update, then the
    regenerate request, then the report when that request is rejected. *)
Definition delegated_run (env : Env) (messageId : string)
    (edited : list Message) (console toast : string) (w : World) : Prop :=
  w_messages w = edited
  /\ w_generated w = 0%nat
  /\ match env_regenerate env messageId edited with
     | Resolved =>
         w_events w = [SetMessages edited; Regenerate messageId edited]
     | Rejected e =>
         w_events w
         = [SetMessages edited; Regenerate messageId edited;
            ConsoleError console (Some e); ToastError (toast +:+ e)]
     end.

(** A structural abort: one notification, nothing else happened. *)
Definition aborted (before : list Message) (w : World) : Prop :=
  w_messages w = before
  /\ length (toasts (w_events w)) = 1%nat
  /\ mutations (w_events w) = []
  /\ truncations (w_events w) = []
  /\ transports (w_events w) = [].

(** The message an edit of the sample log with text [X] creates at time 99. *)
Definition sample_with_text : Message :=
  {| msg_id := "n0";
     msg_role := "user";
     msg_content := Some "X";
     msg_parts := Some [text_part "X"];
     msg_createdAt := Some 99 |}.

(** The remote half of a delegated reconciliation. *)
Definition regenerate_steps (env : Env) (messageId : string)
    (log : list Message) (console toast : string) : list Event :=
  Regenerate messageId log
  :: match env_regenerate env messageId log with
     | Resolved => []
     | Rejected e => report console toast e
     end.

(** A row of the given type with every optional column null. *)
Definition blank_row (type : string) : PartRow :=
  {| row_id := "p1"; row_messageId := "m1"; row_order := 0; row_type := type;
     text_text := None; reasoning_text := None;
     file_mediaType := None; file_filename := None; file_url := None;
     source_url_sourceId := None; source_url_url := None;
     source_url_title := None;
     source_document_sourceId := None; source_document_mediaType := None;
     source_document_title := None; source_document_filename := None;
     source_document_url := None; source_document_snippet := None;
     tool_toolCallId := None; tool_state := None; tool_errorText := None;
     data_prefix := None; data_id := None |}.

Definition with_text (r : PartRow) (t : option string) : PartRow :=
  {| row_id := row_id r; row_messageId := row_messageId r;
     row_order := row_order r; row_type := row_type r;
     text_text := t; reasoning_text := reasoning_text r;
     file_mediaType := file_mediaType r; file_filename := file_filename r;
     file_url := file_url r;
     source_url_sourceId := source_url_sourceId r;
     source_url_url := source_url_url r;
     source_url_title := source_url_title r;
     source_document_sourceId := source_document_sourceId r;
     source_document_mediaType := source_document_mediaType r;
     source_document_title := source_document_title r;
     source_document_filename := source_document_filename r;
     source_document_url := source_document_url r;
     source_document_snippet := source_document_snippet r;
     tool_toolCallId := tool_toolCallId r; tool_state := tool_state r;
     tool_errorText := tool_errorText r;
     data_prefix := data_prefix r; data_id := data_id r |}.

Definition with_file (r : PartRow) (media name url : option string) : PartRow :=
  {| row_id := row_id r; row_messageId := row_messageId r;
     row_order := row_order r; row_type := row_type r;
     text_text := text_text r; reasoning_text := reasoning_text r;
     file_mediaType := media; file_filename := name; file_url := url;
     source_url_sourceId := source_url_sourceId r;
     source_url_url := source_url_url r;
     source_url_title := source_url_title r;
     source_document_sourceId := source_document_sourceId r;
     source_document_mediaType := source_document_mediaType r;
     source_document_title := source_document_title r;
     source_document_filename := source_document_filename r;
     source_document_url := source_document_url r;
     source_document_snippet := source_document_snippet r;
     tool_toolCallId := tool_toolCallId r; tool_state := tool_state r;
     tool_errorText := tool_errorText r;
     data_prefix := data_prefix r; data_id := data_id r |}.

Definition with_tool (r : PartRow) (call state : option string) : PartRow :=
  {| row_id := row_id r; row_messageId := row_messageId r;
     row_order := row_order r; row_type := row_type r;
     text_text := text_text r; reasoning_text := reasoning_text r;
     file_mediaType := file_mediaType r; file_filename := file_filename r;
     file_url := file_url r;
     source_url_sourceId := source_url_sourceId r;
     source_url_url := source_url_url r;
     source_url_title := source_url_title r;
     source_document_sourceId := source_document_sourceId r;
     source_document_mediaType := source_document_mediaType r;
     source_document_title := source_document_title r;
     source_document_filename := source_document_filename r;
     source_document_url := source_document_url r;
     source_document_snippet := source_document_snippet r;
     tool_toolCallId := call; tool_state := state;
     tool_errorText := tool_errorText r;
     data_prefix := data_prefix r; data_id := data_id r |}.

(** The four tool states, spelled out. *)
Definition is_tool_state (s : string) : Prop :=
  s = "input-streaming" \/ s = "input-available"
  \/ s = "output-available" \/ s = "output-error".

(** The mandatory-field groups, by type tag. *)
Definition mandatory_fields (r : PartRow) : Prop :=
  (row_type r = "text" -> text_text r <> None)
  /\ (row_type r = "reasoning" -> reasoning_text r <> None)
  /\ (row_type r = "file" ->
      file_mediaType r <> None /\ file_filename r <> None
      /\ file_url r <> None)
  /\ (like_tool (row_type r) = true ->
      tool_toolCallId r <> None
      /\ exists s, tool_state r = Some s /\ is_tool_state s).

(** What reload-from after [U2] puts in its place at time 99. *)
Definition resent_U2 : Message :=
  {| msg_id := "n0";
     msg_role := "user";
     msg_content := Some "u2";
     msg_parts := Some [text_part "u2"];
     msg_createdAt := Some 99 |}.

(** ** The rest of the two components *)

(** The body the manual component sends:
    [experimental_prepareRequestBody: body => ({ id, message:
    body.messages.at(-1) })]. *)
Record ManualRequestBody := mkManualBody {
  mb_id : string;
  mb_message : option Message
}.

Definition experimental_prepareRequestBody (id : string)
    (messages : list Message) : ManualRequestBody :=
  {| mb_id := id; mb_message := last_elem messages |}.

(** The effect that scrolls to the section of a user message just sent: the
    id whose element [section-<id>] it looks for, if it looks for one. *)
Definition scrollTarget (sections : list ChatSection)
    (messages : list Message) : option string :=
  if 0 <? Z.of_nat (length sections) then
    match last_elem messages with
    | Some lastMessage =>
        if isUser lastMessage then Some (msg_id lastMessage) else None
    | None => None
    end
  else None.

(** An entry of [uploadedFiles], with the fields [onSubmit] reads. *)
Record UploadedFile := mkUploaded {
  uf_status : string;
  uf_mediaType : string;        (* [f.file.type] *)
  uf_url : option string;
  uf_name : option string;
  uf_key : option string
}.

(** The parts [onSubmit] builds. *)
Inductive OutPart :=
| OutText (text : string)
| OutFile (url name key : option string) (mediaType : string).

Record PanelState := mkPanel {
  p_input : string;
  p_uploadedFiles : list UploadedFile;
  p_pathname : string           (* [window.location.pathname] *)
}.

Inductive PanelEvent :=
| SendMessage (role : string) (parts : list OutPart)
| PushState (url : string).

Definition isUploaded (f : UploadedFile) : bool :=
  String.eqb (uf_status f) "uploaded".

Definition file_part (f : UploadedFile) : OutPart :=
  OutFile (uf_url f) (uf_name f) (uf_key f) (uf_mediaType f).

Section Panel.
(** [String.prototype.trim] *)
Variable trim : string -> string.
Variable id : string.

(** [onSubmit] of the server-delegated component: what it emits and the
    input state it leaves. *)
Definition onSubmit (st : PanelState) : list PanelEvent * PanelState :=
  let uploaded := List.filter isUploaded (p_uploadedFiles st) in
  if truthy (Some (trim (p_input st))) || (0 <? Z.of_nat (length uploaded))
  then
    let parts :=
      (if truthy (Some (trim (p_input st)))
       then [OutText (p_input st)] else [])
      ++ map file_part uploaded in
    (SendMessage "user" parts
     :: (if String.eqb (p_pathname st) "/"
         then [PushState ("/search/" +:+ id)] else []),
     {| p_input := ""; p_uploadedFiles := []; p_pathname := p_pathname st |})
  else ([], st).

(** [onQuerySelect] of the same component. *)
Definition onQuerySelect (query : string) : PanelEvent :=
  SendMessage "user" [OutText query].
End Panel.

Definition sent_parts (e : PanelEvent) : list OutPart :=
  match e with
  | SendMessage _ parts => parts
  | PushState _ => []
  end.

Definition is_send (e : PanelEvent) : bool :=
  match e with SendMessage _ _ => true | PushState _ => false end.

(** The section a user message opens. *)
Definition open_section (m : Message) : ChatSection :=
  {| sec_id := msg_id m; userMessage := m; assistantMessages := [] |}.

(** The loop of [buildSections] keeps [result] empty until a section is
    open. *)
Definition loop_inv (st : list ChatSection * option ChatSection) : Prop :=
  snd st = None -> fst st = [].

(** * Properties *)

(** ** Strings and joins *)

Lemma append_cons c (s t : string) : String c s +:+ t = String c (s +:+ t).
Proof. reflexivity. Qed.

Lemma append_empty_r (s : string) : s +:+ "" = s.
Proof. induction s as [|c s IH]; [reflexivity|]. by rewrite append_cons, IH. Qed.

Lemma append_assoc (s t u : string) : (s +:+ t) +:+ u = s +:+ (t +:+ u).
Proof.
  induction s as [|c s IH]; [reflexivity|]. by rewrite !append_cons, IH.
Qed.

Lemma join_started sep l r :
  fst (fold_left (join_step sep) l (r, true)) = r +:+ join_tail sep l.
Proof.
  revert r. induction l as [|x l IH]; intros r; simpl.
  - by rewrite append_empty_r.
  - rewrite IH. by rewrite !append_assoc.
Qed.

Lemma concat_cons2 sep (a b : string) l :
  String.concat sep (a :: b :: l) = a +:+ sep +:+ String.concat sep (b :: l).
Proof. reflexivity. Qed.

Lemma concat_join_tail sep x l :
  String.concat sep (default "" x :: map (default "") l)
  = default "" x +:+ join_tail sep l.
Proof.
  revert x. induction l as [|y l IH]; intros x.
  - simpl. by rewrite append_empty_r.
  - change (map (default "") (y :: l)) with (default "" y :: map (default "") l).
    rewrite concat_cons2, IH. reflexivity.
Qed.

Lemma join_concat sep l : join sep l = String.concat sep (map (default "") l).
Proof.
  destruct l as [|x l]; [reflexivity|].
  unfold join. simpl fold_left. rewrite join_started.
  change (map (default "") (x :: l)) with (default "" x :: map (default "") l).
  by rewrite concat_join_tail.
Qed.

Example join_three :
  join " " [Some "a"; None; Some "b"] = "a  b".
Proof. reflexivity. Qed.

Example getTextFromParts_mixed :
  getTextFromParts
    (Some [text_part "hello"; mkPart "file" None; text_part "world"])
  = "hello world".
Proof. reflexivity. Qed.

(** C5.  [getTextFromParts] is a total function.  It answers the empty
    string when the parts are absent, when the list is empty and when no
    part is text-typed; in every case the answer is the bodies of the
    text-typed parts, in the order of the list, with one space between
    consecutive bodies. *)
Theorem getTextFromParts_spec :
  getTextFromParts None = ""
  /\ getTextFromParts (Some []) = ""
  /\ (forall ps : list Part,
        Forall (fun p => isTextPart p = false) ps ->
        getTextFromParts (Some ps) = "")
  /\ (forall ps : list Part,
        getTextFromParts (Some ps)
        = String.concat " "
            (map (fun p => default "" (part_text p))
                 (List.filter isTextPart ps))).
Proof.
  split; [reflexivity|]. split; [reflexivity|]. split.
  - intros ps Hno. unfold getTextFromParts.
    assert (List.filter isTextPart ps = []) as ->; [|reflexivity].
    induction Hno as [|p ps Hp _ IH]; simpl; [reflexivity|]. by rewrite Hp.
  - intros ps. unfold getTextFromParts. rewrite join_concat.
    by rewrite map_map.
Qed.

Lemma getTextFromParts_spec_witness :
  Forall (fun p => isTextPart p = false) [mkPart "file" None; mkPart "reasoning" (Some "r")]
  /\ getTextFromParts (Some [mkPart "file" None; mkPart "reasoning" (Some "r")]) = "".
Proof.
  split.
  - repeat constructor.
  - apply (proj1 (proj2 (proj2 getTextFromParts_spec))). repeat constructor.
Defined.

(** ** The section builder *)

Lemma assistant_not_user m : isAssistant m = true -> isUser m = false.
Proof.
  unfold isAssistant, isUser. intros H%String.eqb_eq. by rewrite H.
Qed.

Lemma filter_all_true {A} (f : A -> bool) l :
  Forall (fun a => f a = true) (List.filter f l).
Proof.
  induction l as [|x l IH]; simpl; [constructor|].
  destruct (f x) eqn:E; [by constructor | done].
Qed.

Lemma extend_nil s : extend s [] = s.
Proof. destruct s. unfold extend. simpl. by rewrite app_nil_r. Qed.

Lemma extend_push s m l : extend (push_assistant s m) l = extend s (m :: l).
Proof. unfold extend, push_assistant. simpl. by rewrite <- app_assoc. Qed.

Lemma buildSections_finish ms :
  buildSections ms = finish (fold_left sections_step ms ([], None)).
Proof.
  unfold buildSections, finish.
  by destruct (fold_left sections_step ms ([], None)).
Qed.

(** The loop with a section open: the open section collects the assistant
    messages up to the next user message. *)
Lemma loop_open ms : forall res s,
  finish (fold_left sections_step ms (res, Some s))
  = res ++ extend s (List.filter isAssistant (until_next_user ms))
        :: sections_of ms.
Proof.
  induction ms as [|m ms IH]; intros res s.
  - simpl. by rewrite extend_nil.
  - cbn [fold_left sections_step until_next_user sections_of].
    destruct (isUser m) eqn:Hu.
    + rewrite IH. cbn [flush List.filter]. rewrite extend_nil.
      rewrite <- app_assoc. reflexivity.
    + destruct (isAssistant m) eqn:Ha.
      * rewrite IH, extend_push. cbn [List.filter]. by rewrite Ha.
      * rewrite IH. cbn [List.filter]. by rewrite Ha.
Qed.

Lemma loop_closed ms : forall res,
  finish (fold_left sections_step ms (res, None)) = res ++ sections_of ms.
Proof.
  induction ms as [|m ms IH]; intros res.
  - simpl. by rewrite app_nil_r.
  - cbn [fold_left sections_step sections_of].
    destruct (isUser m) eqn:Hu.
    + rewrite loop_open. cbn [flush]. unfold extend. reflexivity.
    + apply IH.
Qed.

Lemma buildSections_sections_of ms : buildSections ms = sections_of ms.
Proof. by rewrite buildSections_finish, loop_closed. Qed.

Lemma sections_of_well_formed ms : Forall well_formed_section (sections_of ms).
Proof.
  induction ms as [|m ms IH]; simpl; [constructor|].
  destruct (isUser m) eqn:Hu; [|done].
  constructor; [|done].
  split; [reflexivity|]. split; [done|]. apply filter_all_true.
Qed.

Lemma shown_split ms :
  List.filter isShown ms
  = List.filter isAssistant (until_next_user ms)
    ++ List.filter isShown (from_next_user ms).
Proof.
  induction ms as [|m ms IH]; [reflexivity|].
  cbn [until_next_user from_next_user]. destruct (isUser m) eqn:Hu.
  - reflexivity.
  - cbn [List.filter]. unfold isShown at 1. rewrite Hu. simpl orb.
    destruct (isAssistant m); simpl; by rewrite IH.
Qed.

Lemma shown_sections_of ms :
  shown (sections_of ms) = List.filter isShown (from_next_user ms).
Proof.
  induction ms as [|m ms IH]; [reflexivity|].
  cbn [sections_of from_next_user]. destruct (isUser m) eqn:Hu.
  - unfold shown in *. cbn [flat_map userMessage assistantMessages].
    rewrite IH. cbn [List.filter]. unfold isShown at 2. rewrite Hu. simpl.
    by rewrite (shown_split ms).
  - apply IH.
Qed.

Lemma until_next_user_app l u rest :
  isUser u = true -> until_next_user (l ++ u :: rest) = until_next_user l.
Proof.
  intros Hu. induction l as [|x l IH]; simpl.
  - by rewrite Hu.
  - destruct (isUser x); [done | by rewrite IH].
Qed.

Lemma sections_of_app pre u rest :
  isUser u = true ->
  sections_of (pre ++ u :: rest) = sections_of pre ++ sections_of (u :: rest).
Proof.
  intros Hu. induction pre as [|x pre IH]; [reflexivity|].
  cbn [app sections_of]. destruct (isUser x).
  - by rewrite until_next_user_app, IH.
  - apply IH.
Qed.

Lemma until_next_user_run mid rest :
  Forall (fun m => isUser m = false) mid ->
  until_next_user (mid ++ rest) = mid ++ until_next_user rest.
Proof.
  induction 1 as [|x mid Hx _ IH]; simpl; [done|]. by rewrite Hx, IH.
Qed.

Lemma sections_of_run mid rest :
  Forall (fun m => isUser m = false) mid ->
  sections_of (mid ++ rest) = sections_of rest.
Proof.
  induction 1 as [|x mid Hx _ IH]; simpl; [done|]. by rewrite Hx.
Qed.

Lemma sections_of_from_next_user ms :
  sections_of (from_next_user ms) = sections_of ms.
Proof.
  induction ms as [|m ms IH]; [reflexivity|].
  cbn [from_next_user]. destruct (isUser m) eqn:Hu; [reflexivity|].
  rewrite IH. simpl. by rewrite Hu.
Qed.

Example buildSections_sample :
  buildSections [A1; S0; U1; A1; S0; A2; U2]
  = [ {| sec_id := "u1"; userMessage := U1; assistantMessages := [A1; A2] |};
      {| sec_id := "u2"; userMessage := U2; assistantMessages := [] |} ].
Proof. reflexivity. Qed.

(** C4.  [buildSections] is a function of the message sequence alone and
    computes the section view of the data model: each user message leads
    one section, whose id is that message's id and whose assistant list is
    the assistant messages between it and the next user message.  The
    sections taken together show, once each and in order, exactly the user
    and assistant messages from the first user message on; so messages of
    any other role, and everything before the first user message, are in no
    section, and an assistant message is in the section of the nearest user
    message before it. *)
Theorem buildSections_partition :
  (forall ms, buildSections ms = sections_of ms)
  /\ (forall ms, Forall well_formed_section (buildSections ms))
  /\ (forall ms,
        shown (buildSections ms) = List.filter isShown (from_next_user ms))
  /\ (forall pre u mid a post,
        isUser u = true ->
        Forall (fun m => isUser m = false) mid ->
        isAssistant a = true ->
        buildSections (pre ++ u :: mid ++ a :: post)
        = buildSections pre
          ++ {| sec_id := msg_id u;
                userMessage := u;
                assistantMessages :=
                  List.filter isAssistant mid
                  ++ a :: List.filter isAssistant (until_next_user post) |}
          :: buildSections (from_next_user post))
  /\ (forall ms,
        Forall (fun m => isUser m = false) ms -> buildSections ms = [])
  /\ (forall ms ms', ms = ms' -> buildSections ms = buildSections ms').
Proof.
  split; [apply buildSections_sections_of|].
  split; [intros ms; rewrite buildSections_sections_of;
          apply sections_of_well_formed|].
  split; [intros ms; rewrite buildSections_sections_of;
          apply shown_sections_of|].
  split; [|split].
  - intros pre u mid a post Hu Hmid Ha.
    rewrite !buildSections_sections_of.
    rewrite sections_of_app by done.
    f_equal. cbn [sections_of]. rewrite Hu.
    pose proof (assistant_not_user a Ha) as Hau.
    rewrite until_next_user_run by done.
    rewrite sections_of_run by done.
    cbn [until_next_user sections_of]. rewrite Hau.
    rewrite sections_of_from_next_user.
    rewrite List.filter_app. cbn [List.filter]. by rewrite Ha.
  - intros ms Hno. rewrite buildSections_sections_of.
    induction Hno as [|m ms Hm _ IH]; simpl; [done|]. by rewrite Hm.
  - by intros ms ms' ->.
Qed.

Lemma buildSections_partition_witness :
  buildSections ([S0] ++ U1 :: [S0] ++ A1 :: [A2; U2; A1])
  = buildSections [S0]
    ++ {| sec_id := "u1"; userMessage := U1; assistantMessages := [A1; A2] |}
    :: buildSections [U2; A1]
  /\ buildSections [A1; S0] = []
  /\ buildSections [U1; A1] = buildSections [U1; A1].
Proof.
  destruct buildSections_partition as (_ & _ & _ & Hnear & Hnone & Hdet).
  split; [|split].
  - apply (Hnear [S0] U1 [S0] A1 [A2; U2; A1]).
    + reflexivity.
    + repeat constructor.
    + reflexivity.
  - apply (Hnone [A1; S0]). repeat constructor.
  - apply (Hdet [U1; A1] [U1; A1]). reflexivity.
Defined.

(** ** Array primitives *)

Section ArrayFacts.
Context {A : Type} (p : A -> bool).

Lemma find_none (l : list A) :
  Forall (fun x => p x = false) l -> find p l = None.
Proof. induction 1 as [|x l Hx _ IH]; simpl; [done|]. by rewrite Hx. Qed.

Lemma find_first (pre : list A) x post :
  Forall (fun x => p x = false) pre -> p x = true ->
  find p (pre ++ x :: post) = Some x.
Proof.
  intros Hpre Hx. induction Hpre as [|y pre Hy _ IH]; simpl.
  - by rewrite Hx.
  - by rewrite Hy.
Qed.

Lemma findIndex_from_none k (l : list A) :
  Forall (fun x => p x = false) l -> findIndex_from k p l = -1.
Proof.
  intros H. revert k. induction H as [|x l Hx _ IH]; intros k; simpl; [done|].
  by rewrite Hx.
Qed.

Lemma findIndex_from_first k (pre : list A) x post :
  Forall (fun x => p x = false) pre -> p x = true ->
  findIndex_from k p (pre ++ x :: post) = k + Z.of_nat (length pre).
Proof.
  intros Hpre Hx. revert k.
  induction Hpre as [|y pre Hy _ IH]; intros k; simpl.
  - rewrite Hx. lia.
  - rewrite Hy, IH. lia.
Qed.

(** Either nothing matches, or the list splits at its first match. *)
Lemma first_match (l : list A) :
  Forall (fun x => p x = false) l
  \/ exists pre x post,
       l = pre ++ x :: post
       /\ Forall (fun x => p x = false) pre /\ p x = true.
Proof.
  induction l as [|y l [IH | (pre & x & post & -> & Hpre & Hx)]].
  - left. constructor.
  - destruct (p y) eqn:Hy.
    + right. exists [], y, l. by repeat split.
    + left. by constructor.
  - destruct (p y) eqn:Hy.
    + right. exists [], y, (pre ++ x :: post). by repeat split.
    + right. exists (y :: pre), x, post. repeat split; [|done]. by constructor.
Qed.

Lemma findIndex_none (l : list A) :
  Forall (fun x => p x = false) l -> findIndex p l = -1.
Proof. apply findIndex_from_none. Qed.

Lemma findIndex_first (pre : list A) x post :
  Forall (fun x => p x = false) pre -> p x = true ->
  findIndex p (pre ++ x :: post) = Z.of_nat (length pre).
Proof.
  intros. unfold findIndex. rewrite findIndex_from_first by done. lia.
Qed.

Lemma at_index_middle (pre : list A) x post :
  at_index (pre ++ x :: post) (Z.of_nat (length pre)) = Some x.
Proof.
  unfold at_index.
  destruct (Z.ltb_spec (Z.of_nat (length pre)) 0) as [?|_]; [lia|].
  rewrite Nat2Z.id. by rewrite list_lookup_middle.
Qed.

Lemma slice0_prefix (pre post : list A) :
  slice0 (pre ++ post) (Z.of_nat (length pre)) = pre.
Proof.
  unfold slice0.
  destruct (Z.ltb_spec (Z.of_nat (length pre)) 0) as [?|_]; [lia|].
  rewrite Nat2Z.id. by rewrite take_app_length.
Qed.

Lemma findIndex_second (pre : list A) t x post :
  Forall (fun x => p x = false) (pre ++ [t]) -> p x = true ->
  findIndex p (pre ++ t :: x :: post) = Z.of_nat (length pre) + 1.
Proof.
  intros Hpre Hx.
  replace (pre ++ t :: x :: post) with ((pre ++ [t]) ++ x :: post)
    by (by rewrite <- app_assoc).
  rewrite findIndex_first by done. rewrite length_app. simpl. lia.
Qed.

Lemma at_index_second (pre : list A) t x post :
  at_index (pre ++ t :: x :: post) (Z.of_nat (length pre) + 1) = Some x.
Proof.
  replace (pre ++ t :: x :: post) with ((pre ++ [t]) ++ x :: post)
    by (by rewrite <- app_assoc).
  replace (Z.of_nat (length pre) + 1) with (Z.of_nat (length (pre ++ [t])))
    by (rewrite length_app; simpl; lia).
  apply at_index_middle.
Qed.
End ArrayFacts.

Lemma truthy_id (id : string) : id <> "" -> negb (truthy (Some id)) = false.
Proof. intros H. simpl. apply String.eqb_neq in H. by rewrite H. Qed.

Lemma falsy_id : negb (truthy (Some "")) = true.
Proof. reflexivity. Qed.

Ltac run_monad :=
  cbv [try_catch bind ret throw setMessages deleteTrailingMessages reload
       regenerate emit read_messages write_messages new_user_message
       generateId new_Date toast_error console_error initial after
       w_messages w_generated w_now w_events fst snd].

(** ** Manual replay strategy *)

(** The run of edit-and-regenerate when the edited id is found: the log is
    cut at the first message with that id and the new user message goes on
    the end, then the remote steps follow. *)
Lemma manual_edit_run env id now pre target post eid text :
  id <> "" ->
  Forall (fun m => hasId eid m = false) pre ->
  hasId eid target = true ->
  let log := pre ++ target :: post in
  let edited := pre ++ [fresh_user_message env now text] in
  Manual.handleUpdateAndReloadMessage env id log eid text (initial log now)
  = (Ok tt,
     {| w_messages := edited;
        w_generated := 1;
        w_now := now;
        w_events :=
          SetMessages edited
          :: remote_steps env id (pivot_of target) edited
               "Error during message edit and reload process:"
               "Error processing edited message: " |}).
Proof.
  intros Hid Hpre Htarget log edited.
  unfold Manual.handleUpdateAndReloadMessage, Manual.edit_updater.
  rewrite (truthy_id id Hid).
  unfold log at 1. rewrite (find_first _ pre target post Hpre Htarget).
  run_monad. unfold log.
  rewrite (findIndex_first _ pre target post Hpre Htarget).
  destruct (Z.eqb_spec (Z.of_nat (length pre)) (-1)) as [?|_]; [lia|].
  cbn [negb]. rewrite slice0_prefix.
  fold (fresh_user_message env now text). fold edited.
  unfold remote_steps, report.
  destruct (env_deleteTrailingMessages env id (pivot_of target)); cbn.
  - destruct (env_reload env edited); reflexivity.
  - reflexivity.
Qed.

Lemma manual_edit_missing env id now log eid text :
  id <> "" ->
  Forall (fun m => hasId eid m = false) log ->
  Manual.handleUpdateAndReloadMessage env id log eid text (initial log now)
  = (Ok tt,
     {| w_messages := log;
        w_generated := 0;
        w_now := now;
        w_events :=
          [ToastError "Original message not found to edit locally.";
           ConsoleError
             "handleUpdateAndReloadMessage: Pivot message not found for timestamp."
             None] |}).
Proof.
  intros Hid Hno. unfold Manual.handleUpdateAndReloadMessage.
  rewrite (truthy_id id Hid), (find_none _ log Hno). reflexivity.
Qed.

Lemma manual_edit_no_chat env now log eid text :
  Manual.handleUpdateAndReloadMessage env "" log eid text (initial log now)
  = (Ok tt,
     {| w_messages := log;
        w_generated := 0;
        w_now := now;
        w_events :=
          [ToastError "Chat ID is missing.";
           ConsoleError
             "handleUpdateAndReloadMessage: chatId (id prop) is undefined."
             None] |}).
Proof. reflexivity. Qed.

(** The run of reload-from when the follower is found after a user
    message. *)
Lemma manual_reload_run env id now pre target follower post fid :
  id <> "" ->
  Forall (fun m => hasId fid m = false) (pre ++ [target]) ->
  hasId fid follower = true ->
  isUser target = true ->
  let log := pre ++ target :: follower :: post in
  let edited :=
    pre ++ [fresh_user_message env now (Manual.contentToResend_of target)] in
  Manual.handleReloadFrom env id log fid (initial log now)
  = (Ok tt,
     {| w_messages := edited;
        w_generated := 1;
        w_now := now;
        w_events :=
          SetMessages edited
          :: remote_steps env id (pivot_of follower) edited
               ("Error during reload from message preceding " +:+ fid +:+ ":")
               "Failed to reload conversation: " |}).
Proof.
  intros Hid Hpre Hfollower Huser. cbv zeta.
  unfold Manual.handleReloadFrom, Manual.reload_updater.
  rewrite (truthy_id id Hid).
  rewrite (findIndex_second _ pre target follower post Hpre Hfollower).
  destruct (Z.ltb_spec (Z.of_nat (length pre) + 1) 1) as [?|_]; [lia|].
  replace (Z.of_nat (length pre) + 1 - 1) with (Z.of_nat (length pre)) by lia.
  rewrite at_index_middle, at_index_second. rewrite Huser. cbn [negb].
  run_monad. rewrite slice0_prefix.
  fold (fresh_user_message env now (Manual.contentToResend_of target)).
  unfold remote_steps, report.
  destruct (env_deleteTrailingMessages env id (pivot_of follower)); cbn.
  - destruct (env_reload env _); reflexivity.
  - reflexivity.
Qed.

Lemma manual_reload_no_chat env now log fid :
  Manual.handleReloadFrom env "" log fid (initial log now)
  = (Ok tt,
     {| w_messages := log;
        w_generated := 0;
        w_now := now;
        w_events := [ToastError "Chat ID is missing for reload."] |}).
Proof. reflexivity. Qed.

Lemma manual_reload_no_predecessor env id now log fid :
  id <> "" ->
  findIndex (hasId fid) log < 1 ->
  Manual.handleReloadFrom env id log fid (initial log now)
  = (Ok tt,
     {| w_messages := log;
        w_generated := 0;
        w_now := now;
        w_events :=
          [ToastError
             "Cannot reload: No preceding message found or message is the first.";
           ConsoleError
             ("handleReloadFrom: No message found before id "
                +:+ fid +:+ " or it is the first message.") None] |}).
Proof.
  intros Hid Hlt. unfold Manual.handleReloadFrom.
  rewrite (truthy_id id Hid).
  destruct (Z.ltb_spec (findIndex (hasId fid) log) 1) as [_|?]; [|lia].
  reflexivity.
Qed.

Lemma manual_reload_wrong_role env id now pre target follower post fid :
  id <> "" ->
  Forall (fun m => hasId fid m = false) (pre ++ [target]) ->
  hasId fid follower = true ->
  isUser target = false ->
  let log := pre ++ target :: follower :: post in
  Manual.handleReloadFrom env id log fid (initial log now)
  = (Ok tt,
     {| w_messages := log;
        w_generated := 0;
        w_now := now;
        w_events :=
          [ToastError
             "Cannot reload: The message to resend must be a user message.";
           ConsoleError
             ("handleReloadFrom: Preceding message (id: "
                +:+ msg_id target +:+ ") is not a user message.") None] |}).
Proof.
  intros Hid Hpre Hfollower Hrole. cbv zeta.
  unfold Manual.handleReloadFrom.
  rewrite (truthy_id id Hid).
  rewrite (findIndex_second _ pre target follower post Hpre Hfollower).
  destruct (Z.ltb_spec (Z.of_nat (length pre) + 1) 1) as [?|_]; [lia|].
  replace (Z.of_nat (length pre) + 1 - 1) with (Z.of_nat (length pre)) by lia.
  rewrite at_index_middle. rewrite Hrole. reflexivity.
Qed.

Lemma truncations_remote_steps env id pivot edited console toast :
  truncations (remote_steps env id pivot edited console toast)
  = [DeleteTrailingMessages id pivot].
Proof.
  unfold remote_steps, report.
  destruct (env_deleteTrailingMessages env id pivot); [|reflexivity].
  destruct (env_reload env edited); reflexivity.
Qed.

Lemma absent_hasId i (log : list Message) :
  Forall (fun m => msg_id m <> i) log ->
  Forall (fun m => hasId i m = false) log.
Proof.
  intros Habs. eapply Forall_impl; [exact Habs|].
  intros m H. unfold hasId. by apply String.eqb_neq.
Qed.

Example edit_U2_sample :
  after (Manual.handleUpdateAndReloadMessage
           (sample_env Resolved Resolved Resolved) "c" [U1; A1; U2; A2] "u2" "X")
        (initial [U1; A1; U2; A2] 99)
  = {| w_messages := [U1; A1; sample_with_text];
       w_generated := 1;
       w_now := 99;
       w_events :=
         [SetMessages [U1; A1; sample_with_text];
          DeleteTrailingMessages "c" (ISO 30);
          Reload [U1; A1; sample_with_text]] |}.
Proof. reflexivity. Qed.

(** C1.  Manual strategy, log [[u1; a1; u2; a2]], edit of [u2] with text
    [X] (the chat id is set and [u2]'s id is not the id of an earlier
    message): the local log becomes [[u1; a1; u2']], where [u2'] is a user
    message with the single text part [X] and the id the generator handed
    out for it, and the run holds exactly one truncation request, for this
    chat, with pivot [u2]'s creation time, or the epoch when [u2] has
    none.  The roles of the four messages play no part. *)
Theorem edit_regenerate_manual env id now (u1 a1 u2 a2 : Message) (X : string) :
  id <> "" ->
  msg_id u1 <> msg_id u2 ->
  msg_id a1 <> msg_id u2 ->
  let log := [u1; a1; u2; a2] in
  let w :=
    after (Manual.handleUpdateAndReloadMessage env id log (msg_id u2) X)
          (initial log now) in
  w_messages w
  = [u1; a1;
     {| msg_id := env_generateId env 0;
        msg_role := "user";
        msg_content := Some X;
        msg_parts := Some [ {| part_type := "text"; part_text := Some X |} ];
        msg_createdAt := Some now |}]
  /\ w_generated w = 1%nat
  /\ truncations (w_events w)
     = [DeleteTrailingMessages id
          (match msg_createdAt u2 with
           | Some t => toISOString t
           | None => toISOString epoch
           end)].
Proof.
  intros Hid H1 H2 log w.
  assert (Forall (fun m => hasId (msg_id u2) m = false) [u1; a1]) as Hpre
    by (apply absent_hasId; by repeat constructor).
  assert (hasId (msg_id u2) u2 = true) as Hu2
    by (unfold hasId; apply String.eqb_refl).
  pose proof (manual_edit_run env id now [u1; a1] u2 [a2] (msg_id u2) X
                Hid Hpre Hu2) as Hrun.
  cbv zeta in Hrun. subst w log. unfold after.
  change ([u1; a1] ++ u2 :: [a2]) with [u1; a1; u2; a2] in Hrun.
  rewrite Hrun. cbn [snd w_messages w_generated w_events].
  split; [reflexivity|]. split; [reflexivity|].
  change (truncations (SetMessages ?e :: ?r)) with (truncations r).
  apply truncations_remote_steps.
Qed.

Lemma edit_regenerate_manual_witness :
  let w :=
    after (Manual.handleUpdateAndReloadMessage
             (sample_env Resolved (Rejected "offline") Resolved) "c"
             [U1; A1; U2; A2] "u2" "X")
          (initial [U1; A1; U2; A2] 99) in
  w_messages w = [U1; A1; sample_with_text]
  /\ w_generated w = 1%nat
  /\ truncations (w_events w) = [DeleteTrailingMessages "c" (ISO 30)].
Proof.
  apply (edit_regenerate_manual
           (sample_env Resolved (Rejected "offline") Resolved) "c" 99
           U1 A1 U2 A2 "X"); discriminate.
Defined.

(** ** Server-delegated strategy *)

Lemma insert_first_match (pre : list Message) target post m :
  <[Z.to_nat (Z.of_nat (length pre)) := m]> (pre ++ target :: post)
  = pre ++ m :: post.
Proof.
  rewrite Nat2Z.id.
  replace (length pre) with (length pre + 0)%nat at 1 by lia.
  by rewrite insert_app_r.
Qed.

Lemma delegated_edit_run env id now pre target post eid text :
  id <> "" ->
  Forall (fun m => hasId eid m = false) pre ->
  hasId eid target = true ->
  let log := pre ++ target :: post in
  let edited := pre ++ with_parts target [text_part text] :: post in
  Delegated.handleUpdateAndReloadMessage env id eid text (initial log now)
  = (Ok tt,
     {| w_messages := edited;
        w_generated := 0;
        w_now := now;
        w_events :=
          SetMessages edited
          :: regenerate_steps env eid edited
               "Error during message edit and reload process:"
               "Error processing edited message: " |}).
Proof.
  intros Hid Hpre Htarget. cbv zeta.
  unfold Delegated.handleUpdateAndReloadMessage, Delegated.edit_updater.
  rewrite (truthy_id id Hid). run_monad.
  rewrite (findIndex_first _ pre target post Hpre Htarget).
  destruct (Z.eqb_spec (Z.of_nat (length pre)) (-1)) as [?|_]; [lia|].
  rewrite at_index_middle, insert_first_match.
  unfold regenerate_steps, report.
  destruct (env_regenerate env eid _); reflexivity.
Qed.

Lemma delegated_edit_missing env id now log eid text :
  id <> "" ->
  Forall (fun m => hasId eid m = false) log ->
  Delegated.handleUpdateAndReloadMessage env id eid text (initial log now)
  = (Ok tt,
     {| w_messages := log;
        w_generated := 0;
        w_now := now;
        w_events :=
          SetMessages log
          :: regenerate_steps env eid log
               "Error during message edit and reload process:"
               "Error processing edited message: " |}).
Proof.
  intros Hid Hno.
  unfold Delegated.handleUpdateAndReloadMessage, Delegated.edit_updater.
  rewrite (truthy_id id Hid). run_monad.
  rewrite (findIndex_none _ log Hno). cbn.
  unfold regenerate_steps, report.
  destruct (env_regenerate env eid log); reflexivity.
Qed.

Lemma delegated_edit_no_chat env now log eid text :
  Delegated.handleUpdateAndReloadMessage env "" eid text (initial log now)
  = (Ok tt,
     {| w_messages := log;
        w_generated := 0;
        w_now := now;
        w_events :=
          [ToastError "Chat ID is missing.";
           ConsoleError
             "handleUpdateAndReloadMessage: chatId (id prop) is undefined."
             None] |}).
Proof. reflexivity. Qed.

Lemma delegated_reload_run env id now log fid :
  id <> "" ->
  Delegated.handleReloadFrom env id fid (initial log now)
  = (Ok tt,
     {| w_messages := log;
        w_generated := 0;
        w_now := now;
        w_events :=
          regenerate_steps env fid log
            ("Error during reload from message " +:+ fid +:+ ":")
            "Failed to reload conversation: " |}).
Proof.
  intros Hid. unfold Delegated.handleReloadFrom.
  rewrite (truthy_id id Hid). run_monad.
  unfold regenerate_steps, report.
  destruct (env_regenerate env fid log); reflexivity.
Qed.

Lemma delegated_reload_no_chat env now log fid :
  Delegated.handleReloadFrom env "" fid (initial log now)
  = (Ok tt,
     {| w_messages := log;
        w_generated := 0;
        w_now := now;
        w_events := [ToastError "Chat ID is missing for reload."] |}).
Proof. reflexivity. Qed.

Lemma transports_regenerate_steps env mid log console toast :
  transports (regenerate_steps env mid log console toast)
  = [Regenerate mid log].
Proof.
  unfold regenerate_steps, report.
  destruct (env_regenerate env mid log); reflexivity.
Qed.

(** ** Ordering of the effects *)

Lemma manual_run_remote env id edited now pivot console toast :
  manual_run env id edited pivot console toast
    {| w_messages := edited;
       w_generated := 1;
       w_now := now;
       w_events :=
         SetMessages edited
         :: remote_steps env id pivot edited console toast |}.
Proof.
  unfold manual_run, remote_steps, report. cbn [w_messages w_generated w_events].
  split; [done|]. split; [done|].
  destruct (env_deleteTrailingMessages env id pivot); [|reflexivity].
  destruct (env_reload env edited); reflexivity.
Qed.

Lemma delegated_run_remote env mid edited now console toast :
  delegated_run env mid edited console toast
    {| w_messages := edited;
       w_generated := 0;
       w_now := now;
       w_events :=
         SetMessages edited :: regenerate_steps env mid edited console toast |}.
Proof.
  unfold delegated_run, regenerate_steps, report.
  cbn [w_messages w_generated w_events].
  split; [done|]. split; [done|].
  destruct (env_regenerate env mid edited); reflexivity.
Qed.

Lemma hasId_false i (l : list Message) :
  Forall (fun m => hasId i m = false) l -> Forall (fun m => msg_id m <> i) l.
Proof.
  intros H. eapply Forall_impl; [exact H|].
  intros m Hm. unfold hasId in Hm. by apply String.eqb_neq.
Qed.

Lemma hasId_true i m : hasId i m = true -> msg_id m = i.
Proof. unfold hasId. apply String.eqb_eq. Qed.

Lemma manual_edit_local env now pre target post eid text :
  Forall (fun m => hasId eid m = false) pre ->
  hasId eid target = true ->
  setMessages (Manual.edit_updater env eid text)
    (initial (pre ++ target :: post) now)
  = (Ok tt, edited_world now (pre ++ [fresh_user_message env now text])).
Proof.
  intros Hpre Htarget. unfold Manual.edit_updater. run_monad.
  rewrite (findIndex_first _ pre target post Hpre Htarget).
  destruct (Z.eqb_spec (Z.of_nat (length pre)) (-1)) as [?|_]; [lia|].
  cbn [negb]. rewrite slice0_prefix. reflexivity.
Qed.

Lemma manual_reload_local env now pre target follower post text :
  setMessages (Manual.reload_updater env (Z.of_nat (length pre)) text)
    (initial (pre ++ target :: follower :: post) now)
  = (Ok tt, edited_world now (pre ++ [fresh_user_message env now text])).
Proof.
  unfold Manual.reload_updater. run_monad. rewrite slice0_prefix. reflexivity.
Qed.

(** C2.  Every invocation of edit-and-regenerate, and of reload-from,
    which has the same [try] block, is pinned down; the handler itself
    never throws.

    Manual edit-and-regenerate: when the chat id is empty or no message has
    the edited id, the run is an abort (one toast, log as it was, no local
    update, no truncation request, no transport request).  Otherwise the
    log splits at the first message [target] with the edited id; the edited
    log is the messages before [target] followed by the new user message;
    the local update alone leaves [edited_world], that is the log already
    edited and no request issued yet; and the whole run is [manual_run] for
    that edited log and pivot [target.createdAt] (or the epoch): local
    update, then truncation request, then the reload request only if the
    truncation resolved, a rejection being reported with the log still the
    edited one.

    Manual reload-from: an abort when the chat id is empty, no message has
    the follower id, the first message has it, or the message before the
    follower is not a user message; otherwise the same ordered run, for the
    log cut before that user message plus the resent message, with pivot
    the follower's creation time.

    Server-delegated edit-and-regenerate: an abort when the chat id is
    empty; otherwise [delegated_run], the local update (in place, or the
    log as it is when no message has the id) first and the regenerate
    request second, with no truncation request. *)
Theorem reconciliation_ordering env id log now :
  (forall eid text,
     let r := Manual.handleUpdateAndReloadMessage env id log eid text
                (initial log now) in
     fst r = Ok tt
     /\ (((id = "" \/ Forall (fun m => msg_id m <> eid) log)
          /\ aborted log (snd r))
         \/ (id <> ""
             /\ exists pre target post,
                  log = pre ++ target :: post
                  /\ Forall (fun m => msg_id m <> eid) pre
                  /\ msg_id target = eid
                  /\ setMessages (Manual.edit_updater env eid text)
                       (initial log now)
                     = (Ok tt,
                        edited_world now
                          (pre ++ [fresh_user_message env now text]))
                  /\ manual_run env id
                       (pre ++ [fresh_user_message env now text])
                       (pivot_of target)
                       "Error during message edit and reload process:"
                       "Error processing edited message: "
                       (snd r))))
  /\ (forall fid,
        let r := Manual.handleReloadFrom env id log fid (initial log now) in
        fst r = Ok tt
        /\ (((id = ""
              \/ Forall (fun m => msg_id m <> fid) log
              \/ (exists follower post,
                    log = follower :: post /\ msg_id follower = fid)
              \/ (exists pre target follower post,
                    log = pre ++ target :: follower :: post
                    /\ Forall (fun m => msg_id m <> fid) (pre ++ [target])
                    /\ msg_id follower = fid
                    /\ isUser target = false))
             /\ aborted log (snd r))
            \/ (id <> ""
                /\ exists pre target follower post,
                     log = pre ++ target :: follower :: post
                     /\ Forall (fun m => msg_id m <> fid) (pre ++ [target])
                     /\ msg_id follower = fid
                     /\ isUser target = true
                     /\ setMessages
                          (Manual.reload_updater env (Z.of_nat (length pre))
                             (Manual.contentToResend_of target))
                          (initial log now)
                        = (Ok tt,
                           edited_world now
                             (pre ++ [fresh_user_message env now
                                        (Manual.contentToResend_of target)]))
                     /\ manual_run env id
                          (pre ++ [fresh_user_message env now
                                     (Manual.contentToResend_of target)])
                          (pivot_of follower)
                          ("Error during reload from message preceding "
                             +:+ fid +:+ ":")
                          "Failed to reload conversation: "
                          (snd r))))
  /\ (forall eid text,
        let r := Delegated.handleUpdateAndReloadMessage env id eid text
                   (initial log now) in
        fst r = Ok tt
        /\ truncations (w_events (snd r)) = []
        /\ ((id = "" /\ aborted log (snd r))
            \/ (id <> ""
                /\ Forall (fun m => msg_id m <> eid) log
                /\ delegated_run env eid log
                     "Error during message edit and reload process:"
                     "Error processing edited message: "
                     (snd r))
            \/ (id <> ""
                /\ exists pre target post,
                     log = pre ++ target :: post
                     /\ Forall (fun m => msg_id m <> eid) pre
                     /\ msg_id target = eid
                     /\ delegated_run env eid
                          (pre ++ with_parts target [text_part text] :: post)
                          "Error during message edit and reload process:"
                          "Error processing edited message: "
                          (snd r)))).
Proof.
  split; [|split].
  - intros eid text. cbv zeta.
    destruct (decide (id = "")) as [->|Hid].
    { rewrite manual_edit_no_chat. split; [done|]. left.
      split; [by left | by repeat split]. }
    destruct (first_match (hasId eid) log)
      as [Hno | (pre & target & post & -> & Hpre & Htarget)].
    + rewrite manual_edit_missing by done. split; [done|]. left.
      split; [right; by apply hasId_false | by repeat split].
    + pose proof (manual_edit_run env id now pre target post eid text
                    Hid Hpre Htarget) as Hrun.
      cbv zeta in Hrun. rewrite Hrun. split; [done|]. right.
      split; [done|]. exists pre, target, post.
      split; [done|]. split; [by apply hasId_false|].
      split; [by apply hasId_true|].
      split; [by apply manual_edit_local | apply manual_run_remote].
  - intros fid. cbv zeta.
    destruct (decide (id = "")) as [->|Hid].
    { rewrite manual_reload_no_chat. split; [done|]. left.
      split; [by left | by repeat split]. }
    destruct (first_match (hasId fid) log)
      as [Hno | (pre & follower & post & -> & Hpre & Hfollower)].
    + rewrite manual_reload_no_predecessor;
        [|done|rewrite findIndex_none by done; lia].
      split; [done|]. left.
      split; [right; left; by apply hasId_false | by repeat split].
    + destruct pre as [|target pre _] using rev_ind.
      * rewrite manual_reload_no_predecessor;
          [|done|rewrite findIndex_first by done; simpl; lia].
        split; [done|]. left. split; [|by repeat split].
        right. right. left. exists follower, post.
        split; [done | by apply hasId_true].
      * rewrite <- app_assoc. cbn [app].
        destruct (isUser target) eqn:Hrole.
        -- pose proof (manual_reload_run env id now pre target follower post
                         fid Hid Hpre Hfollower Hrole) as Hrun.
           cbv zeta in Hrun. rewrite Hrun. split; [done|]. right.
           split; [done|]. exists pre, target, follower, post.
           split; [done|]. split; [by apply hasId_false|].
           split; [by apply hasId_true|]. split; [done|].
           split; [apply manual_reload_local | apply manual_run_remote].
        -- pose proof (manual_reload_wrong_role env id now pre target follower
                         post fid Hid Hpre Hfollower Hrole) as Hrun.
           cbv zeta in Hrun. rewrite Hrun. split; [done|]. left.
           split; [|by repeat split].
           right. right. right. exists pre, target, follower, post.
           split; [done|]. split; [by apply hasId_false|].
           split; [by apply hasId_true | done].
  - intros eid text. cbv zeta.
    destruct (decide (id = "")) as [->|Hid].
    { rewrite delegated_edit_no_chat. split; [done|]. split; [done|].
      left. split; [done | by repeat split]. }
    assert (forall l c t, truncations (regenerate_steps env eid l c t) = [])
      as Hnone.
    { intros l c t. unfold regenerate_steps, report.
      destruct (env_regenerate env eid l); reflexivity. }
    destruct (first_match (hasId eid) log)
      as [Hno | (pre & target & post & -> & Hpre & Htarget)].
    + rewrite delegated_edit_missing by done. cbn [fst snd w_events].
      split; [done|]. split; [apply Hnone|]. right. left.
      split; [done|]. split; [by apply hasId_false|].
      apply delegated_run_remote.
    + pose proof (delegated_edit_run env id now pre target post eid text
                    Hid Hpre Htarget) as Hrun.
      cbv zeta in Hrun. rewrite Hrun. cbn [fst snd w_events].
      split; [done|]. split; [apply Hnone|]. right. right.
      split; [done|]. exists pre, target, post.
      split; [done|]. split; [by apply hasId_false|].
      split; [by apply hasId_true | apply delegated_run_remote].
Qed.

Example ordering_truncation_rejected :
  w_events
    (after (Manual.handleUpdateAndReloadMessage
              (sample_env (Rejected "store down") Resolved Resolved) "c"
              [U1; A1; U2; A2] "u2" "X")
           (initial [U1; A1; U2; A2] 99))
  = [SetMessages [U1; A1; sample_with_text];
     DeleteTrailingMessages "c" (ISO 30);
     ConsoleError "Error during message edit and reload process:"
       (Some "store down");
     ToastError "Error processing edited message: store down"].
Proof. reflexivity. Qed.

(** ** Structural errors *)

Lemma aborted_toast_console log k now t c d :
  aborted log
    {| w_messages := log;
       w_generated := k;
       w_now := now;
       w_events := [ToastError t; ConsoleError c d] |}.
Proof. by repeat split. Qed.

Lemma aborted_toast log k now t :
  aborted log
    {| w_messages := log;
       w_generated := k;
       w_now := now;
       w_events := [ToastError t] |}.
Proof. by repeat split. Qed.

Lemma manual_reload_aborts_below_1 env id log now fid :
  findIndex (hasId fid) log < 1 ->
  aborted log (after (Manual.handleReloadFrom env id log fid) (initial log now)).
Proof.
  intros Hlt. unfold after.
  destruct (decide (id = "")) as [->|Hid].
  - rewrite manual_reload_no_chat. apply aborted_toast.
  - rewrite manual_reload_no_predecessor by done. apply aborted_toast_console.
Qed.

Example reload_from_A2_manual :
  after (Manual.handleReloadFrom (sample_env Resolved Resolved Resolved) "c"
           [U1; A1; U2; A2] "a2")
        (initial [U1; A1; U2; A2] 99)
  = {| w_messages := [U1; A1; resent_U2];
       w_generated := 1;
       w_now := 99;
       w_events :=
         [SetMessages [U1; A1; resent_U2];
          DeleteTrailingMessages "c" (ISO 40);
          Reload [U1; A1; resent_U2]] |}.
Proof. reflexivity. Qed.

Example reload_from_first_manual :
  after (Manual.handleReloadFrom (sample_env Resolved Resolved Resolved) "c"
           [U1; A1; U2; A2] "u1")
        (initial [U1; A1; U2; A2] 99)
  = {| w_messages := [U1; A1; U2; A2];
       w_generated := 0;
       w_now := 99;
       w_events :=
         [ToastError
            "Cannot reload: No preceding message found or message is the first.";
          ConsoleError
            "handleReloadFrom: No message found before id u1 or it is the first message."
            None] |}.
Proof. reflexivity. Qed.

(** C3, as amended.  Under the manual strategy a structural error aborts
    before anything is touched: edit-and-regenerate of an id that no
    message has, reload-from of an id that no message has or that the
    first message has, and reload-from of a message whose predecessor is
    not a user message, each end with exactly one error toast, the same
    local log, no [setMessages], no truncation request and no transport
    request.  Under the server-delegated strategy the handlers make no such
    check: with the chat id set they leave the log as it is in these
    situations, issue no truncation request, and do issue the regenerate
    request; they raise a toast exactly when that request is rejected, and
    then exactly one, carrying the error message.  With an empty chat id
    they abort like the manual handlers. *)
Theorem structural_errors_abort env id log now :
  (forall eid text,
     Forall (fun m => msg_id m <> eid) log ->
     aborted log
       (after (Manual.handleUpdateAndReloadMessage env id log eid text)
              (initial log now)))
  /\ (forall fid,
        Forall (fun m => msg_id m <> fid) log ->
        aborted log
          (after (Manual.handleReloadFrom env id log fid) (initial log now)))
  /\ (forall follower post,
        log = follower :: post ->
        aborted log
          (after (Manual.handleReloadFrom env id log (msg_id follower))
                 (initial log now)))
  /\ (forall fid pre target follower post,
        log = pre ++ target :: follower :: post ->
        Forall (fun m => msg_id m <> fid) (pre ++ [target]) ->
        msg_id follower = fid ->
        isUser target = false ->
        aborted log
          (after (Manual.handleReloadFrom env id log fid) (initial log now)))
  /\ (forall eid text,
        id <> "" ->
        Forall (fun m => msg_id m <> eid) log ->
        let w := after (Delegated.handleUpdateAndReloadMessage env id eid text)
                       (initial log now) in
        w_messages w = log
        /\ truncations (w_events w) = []
        /\ transports (w_events w) = [Regenerate eid log]
        /\ toasts (w_events w)
           = match env_regenerate env eid log with
             | Resolved => []
             | Rejected e =>
                 [ToastError ("Error processing edited message: " +:+ e)]
             end)
  /\ (forall fid,
        id <> "" ->
        let w := after (Delegated.handleReloadFrom env id fid)
                       (initial log now) in
        w_messages w = log
        /\ mutations (w_events w) = []
        /\ truncations (w_events w) = []
        /\ transports (w_events w) = [Regenerate fid log]
        /\ toasts (w_events w)
           = match env_regenerate env fid log with
             | Resolved => []
             | Rejected e =>
                 [ToastError ("Failed to reload conversation: " +:+ e)]
             end)
  /\ (forall eid text,
        id = "" ->
        aborted log
          (after (Delegated.handleUpdateAndReloadMessage env id eid text)
                 (initial log now)))
  /\ (forall fid,
        id = "" ->
        aborted log
          (after (Delegated.handleReloadFrom env id fid) (initial log now))).
Proof.
  repeat apply conj.
  - intros eid text Habs%absent_hasId. unfold after.
    destruct (decide (id = "")) as [->|Hid].
    + rewrite manual_edit_no_chat. apply aborted_toast_console.
    + rewrite manual_edit_missing by done. apply aborted_toast_console.
  - intros fid Habs%absent_hasId. apply manual_reload_aborts_below_1.
    rewrite findIndex_none by done. lia.
  - intros follower post ->. apply manual_reload_aborts_below_1.
    rewrite (findIndex_first _ [] follower post); [simpl; lia|constructor|].
    unfold hasId. apply String.eqb_refl.
  - intros fid pre target follower post -> Hpre%absent_hasId <- Hrole.
    unfold after. destruct (decide (id = "")) as [->|Hid].
    + rewrite manual_reload_no_chat. apply aborted_toast.
    + pose proof (manual_reload_wrong_role env id now pre target follower post
                    (msg_id follower) Hid Hpre) as Hrun.
      cbv zeta in Hrun. rewrite Hrun; [apply aborted_toast_console| |done].
      unfold hasId. apply String.eqb_refl.
  - intros eid text Hid Habs%absent_hasId. cbv zeta. unfold after.
    rewrite delegated_edit_missing by done. cbn [snd w_messages w_events].
    split; [done|]. split; [|split].
    + unfold regenerate_steps, report.
      destruct (env_regenerate env eid log); reflexivity.
    + change (transports (SetMessages ?l :: ?r)) with (transports r).
      apply transports_regenerate_steps.
    + unfold regenerate_steps, report.
      destruct (env_regenerate env eid log); reflexivity.
  - intros fid Hid. cbv zeta. unfold after.
    rewrite delegated_reload_run by done. cbn [snd w_messages w_events].
    split; [done|]. split; [|split; [|split]].
    + unfold regenerate_steps, report.
      destruct (env_regenerate env fid log); reflexivity.
    + unfold regenerate_steps, report.
      destruct (env_regenerate env fid log); reflexivity.
    + apply transports_regenerate_steps.
    + unfold regenerate_steps, report.
      destruct (env_regenerate env fid log); reflexivity.
  - intros eid text ->. unfold after. rewrite delegated_edit_no_chat.
    apply aborted_toast_console.
  - intros fid ->. unfold after. rewrite delegated_reload_no_chat.
    apply aborted_toast.
Qed.

Lemma structural_errors_abort_witness :
  aborted [U1; A1; U2; A2]
    (after (Manual.handleUpdateAndReloadMessage
              (sample_env Resolved Resolved Resolved) "c" [U1; A1; U2; A2]
              "zz" "X")
           (initial [U1; A1; U2; A2] 99))
  /\ aborted [U1; A1; U2; A2]
       (after (Manual.handleReloadFrom
                 (sample_env Resolved Resolved Resolved) "c" [U1; A1; U2; A2]
                 "u1")
              (initial [U1; A1; U2; A2] 99))
  /\ aborted [U1; S0; A1; U2]
       (after (Manual.handleReloadFrom
                 (sample_env Resolved Resolved Resolved) "c" [U1; S0; A1; U2]
                 "a1")
              (initial [U1; S0; A1; U2] 99))
  /\ transports
       (w_events
          (after (Delegated.handleReloadFrom
                    (sample_env Resolved Resolved Resolved) "c" "u1")
                 (initial [U1; A1; U2; A2] 99)))
     = [Regenerate "u1" [U1; A1; U2; A2]]
  /\ toasts
       (w_events
          (after (Delegated.handleReloadFrom
                    (sample_env Resolved Resolved (Rejected "offline")) "c"
                    "u1")
                 (initial [U1; A1; U2; A2] 99)))
     = [ToastError "Failed to reload conversation: offline"].
Proof.
  destruct (structural_errors_abort
              (sample_env Resolved Resolved (Rejected "offline"))
              "c" [U1; A1; U2; A2] 99)
    as (_ & _ & _ & _ & _ & Hrej & _ & _).
  destruct (structural_errors_abort (sample_env Resolved Resolved Resolved)
              "c" [U1; A1; U2; A2] 99)
    as (Hedit & _ & Hfirst & _ & _ & Hdel & _ & _).
  destruct (structural_errors_abort (sample_env Resolved Resolved Resolved)
              "c" [U1; S0; A1; U2] 99)
    as (_ & _ & _ & Hrole & _).
  split; [|split; [|split; [|split]]].
  - apply Hedit. repeat constructor; discriminate.
  - apply (Hfirst U1 [A1; U2; A2]). reflexivity.
  - apply (Hrole "a1" [U1] S0 A1 [U2]).
    + reflexivity.
    + repeat constructor; discriminate.
    + reflexivity.
    + reflexivity.
  - apply (Hdel "u1"). discriminate.
  - apply (Hrej "u1"). discriminate.
Defined.

(** C3 as stated fails under the server-delegated strategy: reload-from on
    the first message of the log raises no notification and issues the
    regenerate request. *)
Lemma structural_errors_delegated_counterexample :
  let log := [U1; A1] in
  let w := after (Delegated.handleReloadFrom
                    (sample_env Resolved Resolved Resolved) "c" "u1")
                 (initial log 0) in
  findIndex (hasId "u1") log = 0
  /\ toasts (w_events w) = []
  /\ transports (w_events w) = [Regenerate "u1" log]
  /\ ~ aborted log w.
Proof.
  cbv zeta. repeat split.
  intros (_ & Htoast & _). vm_compute in Htoast. discriminate.
Qed.

(** ** In-place edit under the server-delegated strategy *)

Example edit_in_place_sample :
  w_messages
    (after (Delegated.handleUpdateAndReloadMessage
              (sample_env Resolved Resolved (Rejected "offline")) "c" "u2" "X")
           (initial [U1; A1; U2; A2] 99))
  = [U1; A1;
     {| msg_id := "u2";
        msg_role := "user";
        msg_content := Some "u2";
        msg_parts := Some [text_part "X"];
        msg_createdAt := Some 30 |};
     A2].
Proof. reflexivity. Qed.

(** C6.  Server-delegated strategy, chat id set, [target] the first message
    of the log with the edited id: the handler's update leaves the log
    [pre ++ target' :: post], where [target'] is [target] with its parts
    replaced by the single text part carrying the new text and its id,
    role, content and creation time as they were.  The log keeps its
    length, position [length pre] holds [target'], every other position
    holds what it held, and no identifier was generated.  (What
    [regenerate] itself does to the log afterwards is the SDK's.) *)
Theorem edit_delegated_in_place env id now pre target post text :
  id <> "" ->
  Forall (fun m => msg_id m <> msg_id target) pre ->
  let log := pre ++ target :: post in
  let w := after (Delegated.handleUpdateAndReloadMessage env id
                    (msg_id target) text)
                 (initial log now) in
  let target' :=
    {| msg_id := msg_id target;
       msg_role := msg_role target;
       msg_content := msg_content target;
       msg_parts := Some [ {| part_type := "text"; part_text := Some text |} ];
       msg_createdAt := msg_createdAt target |} in
  w_messages w = pre ++ target' :: post
  /\ length (w_messages w) = length log
  /\ w_messages w !! length pre = Some target'
  /\ (forall j : nat, j <> length pre -> w_messages w !! j = log !! j)
  /\ w_generated w = 0%nat.
Proof.
  intros Hid Hpre%absent_hasId. cbv zeta. unfold after.
  rewrite delegated_edit_run;
    [|done|done|unfold hasId; apply String.eqb_refl].
  cbn [snd w_messages w_generated]. unfold with_parts, text_part.
  split; [reflexivity|]. split; [|split; [|split]].
  - rewrite !length_app. reflexivity.
  - by rewrite list_lookup_middle.
  - intros j Hj. destruct (decide (j < length pre)%nat) as [Hlt|Hge].
    + by rewrite !lookup_app_l.
    + rewrite !lookup_app_r by lia.
      destruct (j - length pre)%nat as [|n] eqn:E; [lia|reflexivity].
  - reflexivity.
Qed.

Lemma edit_delegated_in_place_witness :
  let w := after (Delegated.handleUpdateAndReloadMessage
                    (sample_env Resolved Resolved Resolved) "c" "u2" "X")
                 (initial [U1; A1; U2; A2] 99) in
  w_messages w = [U1; A1; with_parts U2 [text_part "X"]; A2]
  /\ length (w_messages w) = 4%nat
  /\ w_messages w !! 2%nat = Some (with_parts U2 [text_part "X"])
  /\ (forall j : nat, j <> 2%nat -> w_messages w !! j = [U1; A1; U2; A2] !! j)
  /\ w_generated w = 0%nat.
Proof.
  apply (edit_delegated_in_place (sample_env Resolved Resolved Resolved)
           "c" 99 [U1; A1] U2 [A2] "X").
  - discriminate.
  - repeat constructor; discriminate.
Defined.

(** ** The transport request *)

Lemma at_index_last {A} (l : list A) : last_elem l = last l.
Proof.
  unfold last_elem, at_index.
  destruct l as [|x l] using rev_ind; [reflexivity|].
  rewrite length_app, last_snoc. cbn [length].
  destruct (Z.ltb_spec (Z.of_nat (length l + 1) - 1) 0) as [?|_]; [lia|].
  replace (Z.to_nat (Z.of_nat (length l + 1) - 1)) with (length l) by lia.
  by rewrite list_lookup_middle.
Qed.

Lemma find_some {A} (p : A -> bool) l x :
  find p l = Some x -> x ∈ l /\ p x = true.
Proof.
  induction l as [|y l IH]; simpl; [done|].
  destruct (p y) eqn:Hy.
  - intros [= ->]. split; [left|done].
  - intros [H1 H2]%IH. split; [by right|done].
Qed.

Example request_edit_sample :
  Delegated.prepareSendMessagesRequest "c" [U1; A1; U2; A2]
    "regenerate-assistant-message" (Some "u2")
  = {| body_trigger := "regenerate-assistant-message";
       body_chatId := "c";
       body_messageId := Some "u2";
       body_message := Some U2 |}.
Proof. reflexivity. Qed.

Example request_regenerate_sample :
  body_message
    (Delegated.prepareSendMessagesRequest "c" [U1; A1; U2; A2]
       "regenerate-assistant-message" (Some "a2"))
  = None.
Proof. reflexivity. Qed.

(** C7.  The request body follows the trigger.  For [submit-user-message]
    it names that trigger and the chat id and carries, of the whole log,
    only its last message.  For [regenerate-assistant-message] it names
    that trigger, the chat id and the target id, and it carries a message
    exactly when the first message of the log with the target id is a user
    message, which is then the message carried. *)
Theorem prepareSendMessagesRequest_by_trigger id log (messageId : option string) :
  (let b := Delegated.prepareSendMessagesRequest id log
              "submit-user-message" messageId in
   body_trigger b = "submit-user-message"
   /\ body_chatId b = id
   /\ body_messageId b = messageId
   /\ body_message b = last log)
  /\ (let b := Delegated.prepareSendMessagesRequest id log
                 "regenerate-assistant-message" messageId in
      body_trigger b = "regenerate-assistant-message"
      /\ body_chatId b = id
      /\ body_messageId b = messageId
      /\ (forall m,
            body_message b = Some m
            <-> find (Delegated.idIs messageId) log = Some m
                /\ isUser m = true)
      /\ (forall m,
            body_message b = Some m ->
            m ∈ log /\ Some (msg_id m) = messageId
            /\ msg_role m = "user")).
Proof.
  split.
  - cbv zeta. unfold Delegated.prepareSendMessagesRequest. cbn.
    repeat split. apply at_index_last.
  - cbv zeta. unfold Delegated.prepareSendMessagesRequest. cbn.
    split; [done|]. split; [done|]. split; [done|].
    assert (forall m,
      match find (Delegated.idIs messageId) log with
      | Some m0 => if isUser m0 then Some m0 else None
      | None => None
      end = Some m
      <-> find (Delegated.idIs messageId) log = Some m /\ isUser m = true)
      as Hiff.
    { intros m. destruct (find (Delegated.idIs messageId) log) as [m0|].
      - destruct (isUser m0) eqn:Hu.
        + split; [intros [= ->]; done | intros [[= ->] _]; done].
        + split; [done | intros [[= ->] ?]; congruence].
      - split; [done | intros [? _]; done]. }
    split; [exact Hiff|].
    intros m [Hfind Hu]%Hiff.
    apply find_some in Hfind as [Hin Hid].
    split; [done|]. split.
    + destruct messageId as [i|]; [|done].
      simpl in Hid. unfold hasId in Hid. apply String.eqb_eq in Hid.
      by rewrite Hid.
    + unfold isUser in Hu. by apply String.eqb_eq in Hu.
Qed.

Lemma prepareSendMessagesRequest_by_trigger_witness :
  body_message
    (Delegated.prepareSendMessagesRequest "c" [U1; A1; U2; A2]
       "regenerate-assistant-message" (Some "u2"))
  = Some U2
  /\ body_message
       (Delegated.prepareSendMessagesRequest "c" [U1; A1; U2; A2]
          "submit-user-message" None)
     = Some A2.
Proof.
  destruct (prepareSendMessagesRequest_by_trigger "c" [U1; A1; U2; A2]
              (Some "u2")) as (_ & _ & _ & _ & Hiff & _).
  destruct (prepareSendMessagesRequest_by_trigger "c" [U1; A1; U2; A2] None)
    as ((_ & _ & _ & Hlast) & _).
  split.
  - apply Hiff. split; reflexivity.
  - rewrite Hlast. reflexivity.
Defined.

(** ** The check constraints of [parts] *)

Lemma is_not_null_true (c : option string) : is_not_null c = true <-> c <> None.
Proof. destruct c; simpl; split; congruence. Qed.

Lemma sql_in_tool_states s : sql_in s tool_states = true <-> is_tool_state s.
Proof.
  unfold sql_in, tool_states, is_tool_state. cbn [existsb].
  rewrite !orb_true_iff, !String.eqb_eq. intuition discriminate.
Qed.

Lemma negb_eqb_or (a b : string) (c : bool) :
  negb (String.eqb a b) || c = true <-> (a = b -> c = true).
Proof.
  destruct (String.eqb_spec a b) as [->|Hne]; simpl.
  - split; auto.
  - split; [intros _ H; by destruct Hne | done].
Qed.

Lemma tool_state_valid_iff r :
  tool_state_valid r = true
  <-> (forall s, tool_state r = Some s -> is_tool_state s).
Proof.
  unfold tool_state_valid. destruct (tool_state r) as [s|].
  - rewrite sql_in_tool_states. split; [by intros H ? [= <-] | auto].
  - split; [done | auto].
Qed.

Example text_row_null_text_rejected : accepted (blank_row "text") = false.
Proof. reflexivity. Qed.

Example file_row_without_url_rejected :
  accepted (with_file (blank_row "file") (Some "image/png") (Some "a.png") None)
  = false.
Proof. reflexivity. Qed.

Example tool_row_without_state_rejected :
  accepted (with_tool (blank_row "tool-invocation") (Some "call-1") None)
  = false.
Proof. reflexivity. Qed.

Example tool_row_unknown_state_rejected :
  accepted (with_tool (blank_row "tool-search") (Some "call-1") (Some "done"))
  = false.
Proof. reflexivity. Qed.

Example tool_row_accepted :
  accepted
    (with_tool (blank_row "tool-search") (Some "call-1") (Some "output-error"))
  = true.
Proof. reflexivity. Qed.

(** C8.  A row passes the five checks of the table exactly when it has the
    mandatory fields of its type (text body for [text], reasoning body for
    [reasoning], media type, filename and url for [file], call id and one
    of the four states for a type beginning with [tool-]) and its tool
    state, if any, is one of the four.  So a stored row satisfies the
    per-type invariant, and a row that breaks any group is not stored. *)
Theorem parts_checks r :
  (accepted r = true
   <-> mandatory_fields r
       /\ (forall s, tool_state r = Some s -> is_tool_state s))
  /\ (accepted r = true -> mandatory_fields r)
  /\ (~ mandatory_fields r -> accepted r = false).
Proof.
  assert (accepted r = true
          <-> mandatory_fields r
              /\ (forall s, tool_state r = Some s -> is_tool_state s)) as Hiff.
  { unfold accepted, mandatory_fields.
    unfold text_text_required, reasoning_text_required, file_fields_required,
      tool_fields_required.
    destruct (like_tool (row_type r)) eqn:Hl; cbn [negb orb];
    rewrite ?andb_true_iff, ?negb_eqb_or, ?tool_state_valid_iff;
    rewrite ?andb_true_iff, ?is_not_null_true.
    - split.
      + intros ((((Ht & Hr) & Hf) & Hs) & Hc & Hst).
        split; [|done]. split; [done|]. split; [done|]. split.
        * intros Hfile. by destruct (Hf Hfile) as [[? ?] ?].
        * intros _. split; [done|].
          destruct (tool_state r) as [s|] eqn:E; [|done].
          exists s. split; [done|]. by apply Hs.
      + intros ((Ht & Hr & Hf & Htool) & Hs).
        destruct (Htool eq_refl) as (Hc & s & Hst & _).
        split; [|split; [done | by rewrite Hst]].
        split; [|done]. split; [by split|].
        intros Hfile. by destruct (Hf Hfile) as (? & ? & ?).
    - split.
      + intros ((((Ht & Hr) & Hf) & Hs) & _).
        split; [|done]. split; [done|]. split; [done|]. split; [|done].
        intros Hfile. by destruct (Hf Hfile) as [[? ?] ?].
      + intros ((Ht & Hr & Hf & _) & Hs).
        split; [|done]. split; [|done]. split; [by split|].
        intros Hfile. by destruct (Hf Hfile) as (? & ? & ?). }
  split; [exact Hiff|]. split.
  - intros H. by apply Hiff in H as [? _].
  - intros Hno. destruct (accepted r) eqn:E; [|done].
    destruct Hno. by apply Hiff.
Qed.

Lemma parts_checks_witness :
  mandatory_fields
    (with_tool (blank_row "tool-search") (Some "call-1") (Some "output-error"))
  /\ mandatory_fields (with_text (blank_row "text") (Some "hi")).
Proof.
  split.
  - apply (proj1 (proj2 (parts_checks _))). reflexivity.
  - apply (proj1 (proj2 (parts_checks _))). reflexivity.
Defined.

(** ** Conversion of SDK messages *)

Lemma filter_text_nonempty (ps : list Part) :
  Exists (fun p => part_type p = "text") ps ->
  (0 < length (List.filter isTextPart ps))%nat.
Proof.
  induction 1 as [p ps Hp | p ps _ IH]; simpl.
  - unfold isTextPart at 1. rewrite Hp. simpl. lia.
  - destruct (isTextPart p); simpl; lia.
Qed.

Lemma filter_text_empty (ps : list Part) :
  Forall (fun p => part_type p <> "text") ps ->
  List.filter isTextPart ps = [].
Proof.
  induction 1 as [|p ps Hp _ IH]; simpl; [done|].
  unfold isTextPart at 1. apply String.eqb_neq in Hp. by rewrite Hp.
Qed.

Example convert_tool_call_sample :
  convertMessageForDB (fun _ => "<json>")
    (mkCoreMessage "assistant"
       (CArray [mkPart "tool-call" None; mkPart "text" (Some "done");
                mkPart "text" (Some "!")]))
  = {| db_role := "assistant";
       db_parts := [ {| db_text := Some "done" |}; {| db_text := Some "!" |} ] |}.
Proof. reflexivity. Qed.

(** C9.  [convertMessageForDB] is a total function that keeps the role.
    Its parts are: none when the content is [null] or [undefined]; one part
    holding the content when the content is a string; one part per
    text-typed entry, in order, when the content is an array with at least
    one text-typed entry; and otherwise (an array without text-typed
    entries, or any other value) one part holding the JSON serialization of
    the whole content. *)
Theorem convertMessageForDB_spec (JSON_stringify : Content -> string)
    (message : CoreMessage) :
  let out := convertMessageForDB JSON_stringify message in
  db_role out = cm_role message
  /\ (cm_content message = CNull \/ cm_content message = CUndefined ->
      db_parts out = [])
  /\ (forall s,
        cm_content message = CString s ->
        db_parts out = [ {| db_text := Some s |} ])
  /\ (forall ps,
        cm_content message = CArray ps ->
        Exists (fun p => part_type p = "text") ps ->
        db_parts out
        = map (fun p => {| db_text := part_text p |})
              (List.filter isTextPart ps))
  /\ (forall ps,
        cm_content message = CArray ps ->
        Forall (fun p => part_type p <> "text") ps ->
        db_parts out = [ {| db_text := Some (JSON_stringify (CArray ps)) |} ])
  /\ (forall o,
        cm_content message = COther o ->
        db_parts out = [ {| db_text := Some (JSON_stringify (COther o)) |} ]).
Proof.
  cbv zeta. unfold convertMessageForDB. cbn [db_role db_parts].
  split; [reflexivity|]. split; [|split; [|split; [|split]]].
  - by intros [-> | ->].
  - by intros s ->.
  - intros ps -> Hex%filter_text_nonempty.
    rewrite length_map.
    destruct (Z.ltb_spec 0 (Z.of_nat (length (List.filter isTextPart ps))))
      as [_|?]; [reflexivity | lia].
  - intros ps -> Hno%filter_text_empty. by rewrite Hno.
  - by intros o ->.
Qed.

Lemma convertMessageForDB_spec_witness :
  db_parts
    (convertMessageForDB (fun _ => "<json>")
       (mkCoreMessage "assistant"
          (CArray [mkPart "tool-call" None; mkPart "text" (Some "done")])))
  = [ {| db_text := Some "done" |} ]
  /\ db_parts
       (convertMessageForDB (fun _ => "<json>")
          (mkCoreMessage "assistant" (CArray [mkPart "tool-call" None])))
     = [ {| db_text := Some "<json>" |} ]
  /\ db_parts
       (convertMessageForDB (fun _ => "<json>") (mkCoreMessage "user" CNull))
     = [].
Proof.
  split; [|split].
  - apply (proj1 (proj2 (proj2 (proj2
             (convertMessageForDB_spec (fun _ => "<json>")
                (mkCoreMessage "assistant"
                   (CArray [mkPart "tool-call" None;
                            mkPart "text" (Some "done")]))))))
             [mkPart "tool-call" None; mkPart "text" (Some "done")]).
    + reflexivity.
    + right. left. reflexivity.
  - apply (proj1 (proj2 (proj2 (proj2 (proj2
             (convertMessageForDB_spec (fun _ => "<json>")
                (mkCoreMessage "assistant"
                   (CArray [mkPart "tool-call" None])))))))
             [mkPart "tool-call" None]).
    + reflexivity.
    + repeat constructor. discriminate.
  - apply (proj1 (proj2
             (convertMessageForDB_spec (fun _ => "<json>")
                (mkCoreMessage "user" CNull)))).
    left. reflexivity.
Defined.

(** ** Titles *)

Lemma substring0_length s n :
  Z.of_nat (String.length (substring0 s n)) <= Z.max n 0.
Proof.
  unfold substring0.
  assert (forall k t, (String.length (String.substring 0 k t) <= k)%nat) as H.
  { induction k as [|k IH]; intros [|c t]; simpl; try lia.
    specialize (IH t). lia. }
  specialize (H (Z.to_nat n) s). lia.
Qed.

Example title_truncated :
  extractTitleFromMessage (mkCoreMessage "user" (CString "hello world"))
    (Some 5)
  = "hello".
Proof. reflexivity. Qed.

(** C10 as stated fails: with [maxLength] 3 and no content the title is the
    8-character fallback, and for the empty string as content the title is
    the fallback and not the (empty) beginning of the content. *)
Lemma extractTitleFromMessage_counterexample :
  extractTitleFromMessage (mkCoreMessage "user" CNull) (Some 3) = "New Chat"
  /\ ~ (Z.of_nat
          (String.length
             (extractTitleFromMessage (mkCoreMessage "user" CNull) (Some 3)))
        <= 3)
  /\ extractTitleFromMessage (mkCoreMessage "user" (CString "")) None
     <> substring0 "" default_maxLength.
Proof.
  split; [reflexivity|]. split.
  - vm_compute. intros H. by apply H.
  - vm_compute. discriminate.
Qed.

(** C10, as amended.  The title is never longer than the larger of
    [maxLength] (100 by default) and 8, the length of the fallback; so it
    is within [maxLength] whenever that is at least 8.  It is the first
    [maxLength] characters of the content when the content is a string
    that is not empty, the first [maxLength] characters of the first
    text-typed part when the content is an array that has one, and the
    fallback [New Chat] when the content is absent, is the empty string,
    or is an array without a text-typed part. *)
Theorem extractTitleFromMessage_spec message (maxLength : option Z) :
  let n := default 100 maxLength in
  let title := extractTitleFromMessage message maxLength in
  Z.of_nat (String.length title) <= Z.max n 8
  /\ (8 <= n -> Z.of_nat (String.length title) <= n)
  /\ (forall s,
        cm_content message = CString s -> s <> "" ->
        title = substring0 s n)
  /\ (forall pre p post t,
        cm_content message = CArray (pre ++ p :: post) ->
        Forall (fun q => part_type q <> "text") pre ->
        part_type p = "text" ->
        part_text p = Some t ->
        title = substring0 t n)
  /\ (cm_content message = CNull \/ cm_content message = CUndefined
      \/ cm_content message = CString "" ->
      title = "New Chat")
  /\ (forall ps,
        cm_content message = CArray ps ->
        Forall (fun q => part_type q <> "text") ps ->
        title = "New Chat").
Proof.
  cbv zeta. unfold extractTitleFromMessage, default_maxLength.
  set (n := default 100 maxLength).
  assert (Z.of_nat (String.length "New Chat") = 8) as Hfb by reflexivity.
  assert (forall q : Part, part_type q <> "text" -> isTextPart q = false)
    as Hnot by (intros q Hq; unfold isTextPart; by apply String.eqb_neq).
  split; [|split; [|split; [|split; [|split]]]].
  - destruct (cm_content message) as [| |s|ps|o]; simpl content_falsy; cbv iota;
      try (rewrite Hfb; lia).
    + destruct (String.eqb s ""); [rewrite Hfb; lia|].
      pose proof (substring0_length s n). lia.
    + destruct (find isTextPart ps) as [p|]; [|rewrite Hfb; lia].
      destruct (part_text p) as [t|]; [|rewrite Hfb; lia].
      pose proof (substring0_length t n). lia.
  - intros Hn.
    destruct (cm_content message) as [| |s|ps|o]; simpl content_falsy; cbv iota;
      try (rewrite Hfb; lia).
    + destruct (String.eqb s ""); [rewrite Hfb; lia|].
      pose proof (substring0_length s n). lia.
    + destruct (find isTextPart ps) as [p|]; [|rewrite Hfb; lia].
      destruct (part_text p) as [t|]; [|rewrite Hfb; lia].
      pose proof (substring0_length t n). lia.
  - intros s -> Hs. simpl content_falsy. apply String.eqb_neq in Hs.
    by rewrite Hs.
  - intros pre p post t -> Hpre Hp Ht. simpl content_falsy. cbv iota.
    rewrite (find_first isTextPart pre p post).
    + by rewrite Ht.
    + eapply Forall_impl; [exact Hpre|]. exact Hnot.
    + unfold isTextPart. rewrite Hp. reflexivity.
  - by intros [-> | [-> | ->]].
  - intros ps -> Hno. simpl content_falsy. cbv iota.
    rewrite (find_none isTextPart ps); [reflexivity|].
    eapply Forall_impl; [exact Hno|]. exact Hnot.
Qed.

Lemma extractTitleFromMessage_spec_witness :
  extractTitleFromMessage
    (mkCoreMessage "assistant"
       (CArray [mkPart "tool-call" None; mkPart "text" (Some "weather today")]))
    (Some 7)
  = "weather"
  /\ extractTitleFromMessage (mkCoreMessage "user" (CString "hi")) None = "hi"
  /\ Z.of_nat
       (String.length
          (extractTitleFromMessage (mkCoreMessage "user" CNull) (Some 3)))
     <= 8.
Proof.
  split; [|split].
  - apply (proj1 (proj2 (proj2 (proj2
             (extractTitleFromMessage_spec
                (mkCoreMessage "assistant"
                   (CArray [mkPart "tool-call" None;
                            mkPart "text" (Some "weather today")]))
                (Some 7)))))
             [mkPart "tool-call" None] (mkPart "text" (Some "weather today"))
             [] "weather today").
    + reflexivity.
    + repeat constructor. discriminate.
    + reflexivity.
    + reflexivity.
  - apply (proj1 (proj2 (proj2
             (extractTitleFromMessage_spec
                (mkCoreMessage "user" (CString "hi")) None))) "hi").
    + reflexivity.
    + discriminate.
  - apply (proj1 (extractTitleFromMessage_spec
                    (mkCoreMessage "user" CNull) (Some 3))).
Defined.

(** * Further properties of the code *)

(** ** The section view as the log grows *)

Lemma sections_step_inv st m : loop_inv st -> loop_inv (sections_step st m).
Proof.
  destruct st as [res [s|]]; unfold loop_inv, sections_step; simpl.
  - destruct (isUser m); [done|]. by destruct (isAssistant m).
  - destruct (isUser m); [done|]. auto.
Qed.

Lemma fold_sections_inv ms : forall st,
  loop_inv st -> loop_inv (fold_left sections_step ms st).
Proof.
  induction ms as [|m ms IH]; intros st Hst; simpl; [done|].
  apply IH. by apply sections_step_inv.
Qed.

Lemma buildSections_snoc ms m :
  buildSections (ms ++ [m])
  = finish (sections_step (fold_left sections_step ms ([], None)) m).
Proof. by rewrite buildSections_finish, fold_left_app. Qed.

Lemma snoc_user_section ms u :
  isUser u = true ->
  buildSections (ms ++ [u]) = buildSections ms ++ [open_section u].
Proof.
  intros Hu. rewrite buildSections_snoc, buildSections_finish.
  destruct (fold_left sections_step ms ([], None)) as [res cur].
  unfold sections_step. rewrite Hu. reflexivity.
Qed.

(** X1.  Sending a user message adds one section at the end of the view,
    led by that message and without assistant messages; the sections
    already there are not touched. *)
Theorem buildSections_append_user ms u :
  isUser u = true ->
  buildSections (ms ++ [u]) = buildSections ms ++ [open_section u].
Proof.
  intros Hu. rewrite buildSections_snoc, buildSections_finish.
  destruct (fold_left sections_step ms ([], None)) as [res cur].
  unfold sections_step, finish. rewrite Hu. cbn [fst snd flush].
  reflexivity.
Qed.

Lemma buildSections_append_user_witness :
  buildSections ([U1; A1] ++ [U2])
  = buildSections [U1; A1] ++ [open_section U2].
Proof. apply buildSections_append_user. reflexivity. Defined.

(** X2.  An assistant message arriving at the end of the log goes to the
    last section and changes nothing else; when the view has no section yet
    it is not shown.  A message of any other role never changes the
    view. *)
Theorem buildSections_append_reply ms m :
  isUser m = false ->
  (isAssistant m = true ->
   forall init s,
     buildSections ms = init ++ [s] ->
     buildSections (ms ++ [m]) = init ++ [push_assistant s m])
  /\ (buildSections ms = [] -> buildSections (ms ++ [m]) = [])
  /\ (isAssistant m = false -> buildSections (ms ++ [m]) = buildSections ms).
Proof.
  intros Hu. rewrite buildSections_snoc, buildSections_finish.
  pose proof (fold_sections_inv ms ([], None) (fun _ => eq_refl)) as Hinv.
  destruct (fold_left sections_step ms ([], None)) as [res [s'|]];
    unfold sections_step, finish, loop_inv in *; rewrite Hu; simpl in *.
  - split; [|split].
    + intros Ha init s [-> ->]%app_inj_tail. by rewrite Ha.
    + intros H. by destruct res.
    + by intros ->.
  - rewrite (Hinv eq_refl). split; [|split].
    + intros _ init s H. by destruct init.
    + done.
    + done.
Qed.

Lemma buildSections_append_reply_witness :
  buildSections ([U1; A1; U2] ++ [A2])
  = [push_assistant (open_section U1) A1]
    ++ [push_assistant (open_section U2) A2]
  /\ buildSections ([A1] ++ [A2]) = []
  /\ buildSections ([U1] ++ [S0]) = buildSections [U1].
Proof.
  destruct (buildSections_append_reply [U1; A1; U2] A2 eq_refl) as (Ha & _ & _).
  destruct (buildSections_append_reply [A1] A2 eq_refl) as (_ & Hn & _).
  destruct (buildSections_append_reply [U1] S0 eq_refl) as (_ & _ & Ho).
  split; [|split].
  - apply Ha; reflexivity.
  - apply Hn. reflexivity.
  - apply Ho. reflexivity.
Defined.

Lemma sections_of_ids ms :
  map sec_id (sections_of ms) = map msg_id (List.filter isUser ms).
Proof.
  induction ms as [|m ms IH]; [reflexivity|]. simpl.
  destruct (isUser m); simpl; by rewrite IH.
Qed.

(** X3.  The view has one section per user message of the log, in the
    order of the log, and the section ids are the ids of those messages. *)
Theorem buildSections_ids ms :
  map sec_id (buildSections ms) = map msg_id (List.filter isUser ms)
  /\ length (buildSections ms) = length (List.filter isUser ms)
  /\ map userMessage (buildSections ms) = List.filter isUser ms.
Proof.
  rewrite buildSections_sections_of. split; [apply sections_of_ids|]. split.
  - rewrite <- (length_map sec_id), sections_of_ids. apply length_map.
  - induction ms as [|m ms IH]; [reflexivity|]. simpl.
    destruct (isUser m); simpl; by rewrite IH.
Qed.

(** X4.  The scroll effect looks for a section exactly when the last
    message of the log is a user message, for the id of that message; the
    section it looks for is then the last section of the view and has no
    assistant message yet. *)
Theorem scrollTarget_last_section ms :
  scrollTarget (buildSections ms) ms
  = match last ms with
    | Some m => if isUser m then Some (msg_id m) else None
    | None => None
    end
  /\ (forall i,
        scrollTarget (buildSections ms) ms = Some i ->
        exists s,
          last (buildSections ms) = Some s
          /\ sec_id s = i /\ assistantMessages s = []).
Proof.
  assert (scrollTarget (buildSections ms) ms
          = match last ms with
            | Some m => if isUser m then Some (msg_id m) else None
            | None => None
            end) as Heq.
  { unfold scrollTarget. rewrite at_index_last.
    destruct ms as [|m ms _] using rev_ind; [reflexivity|].
    rewrite last_snoc. destruct (isUser m) eqn:Hu.
    - rewrite snoc_user_section by done.
      rewrite length_app. simpl.
      destruct (Z.ltb_spec 0 (Z.of_nat (length (buildSections ms) + 1)));
        [reflexivity | lia].
    - by destruct (0 <? _). }
  split; [exact Heq|].
  intros i. rewrite Heq.
  destruct ms as [|m ms _] using rev_ind; [done|].
  rewrite last_snoc. destruct (isUser m) eqn:Hu; [|done].
  intros [= <-]. rewrite snoc_user_section by done.
  exists (open_section m). by rewrite last_snoc.
Qed.

Lemma scrollTarget_last_section_witness :
  exists s,
    last (buildSections [U1; A1; U2]) = Some s
    /\ sec_id s = "u2" /\ assistantMessages s = [].
Proof.
  apply (proj2 (scrollTarget_last_section [U1; A1; U2]) "u2"). reflexivity.
Defined.

(** ** Reload-from and edit under the manual strategy *)

(** X5.  Manual reload-from on a follower that comes right after a user
    message (chat id set, the follower being the first message with its
    id): the local log is cut before that user message and ends with one
    new user message carrying the text to resend, under the id the
    generator handed out; exactly one truncation request is issued, with
    the follower's creation time (or the epoch) as pivot. *)
Theorem reload_from_manual_resends env id now pre target follower post :
  id <> "" ->
  Forall (fun m => msg_id m <> msg_id follower) (pre ++ [target]) ->
  isUser target = true ->
  let log := pre ++ target :: follower :: post in
  let w := after (Manual.handleReloadFrom env id log (msg_id follower))
                 (initial log now) in
  w_messages w
  = pre ++ [ {| msg_id := env_generateId env 0;
                msg_role := "user";
                msg_content := Some (Manual.contentToResend_of target);
                msg_parts :=
                  Some [ {| part_type := "text";
                            part_text :=
                              Some (Manual.contentToResend_of target) |} ];
                msg_createdAt := Some now |} ]
  /\ w_generated w = 1%nat
  /\ truncations (w_events w)
     = [DeleteTrailingMessages id (pivot_of follower)].
Proof.
  intros Hid Hpre%absent_hasId Huser. cbv zeta. unfold after.
  rewrite manual_reload_run;
    [|done|done|unfold hasId; apply String.eqb_refl|done].
  cbn [snd w_messages w_generated w_events].
  split; [reflexivity|]. split; [reflexivity|].
  change (truncations (SetMessages ?e :: ?r)) with (truncations r).
  apply truncations_remote_steps.
Qed.

Lemma reload_from_manual_resends_witness :
  let w := after (Manual.handleReloadFrom
                    (sample_env (Rejected "offline") Resolved Resolved) "c"
                    [U1; A1; U2; A2] "a2")
                 (initial [U1; A1; U2; A2] 99) in
  w_messages w = [U1; A1; resent_U2]
  /\ w_generated w = 1%nat
  /\ truncations (w_events w) = [DeleteTrailingMessages "c" (ISO 40)].
Proof.
  apply (reload_from_manual_resends
           (sample_env (Rejected "offline") Resolved Resolved) "c" 99
           [U1; A1] U2 A2 []).
  - discriminate.
  - repeat constructor; discriminate.
  - reflexivity.
Defined.

(** X6.  The text reload-from resends: the text parts of the message
    joined without separator when that is not empty, otherwise the plain
    content, otherwise the empty string.  For a message the manual handlers
    created themselves it is the text the message was created with. *)
Theorem contentToResend_of_spec :
  (forall env now t,
     Manual.contentToResend_of (fresh_user_message env now t) = t)
  /\ (forall m ps,
        msg_parts m = Some ps ->
        join "" (map part_text (List.filter isTextPart ps)) <> "" ->
        Manual.contentToResend_of m
        = join "" (map part_text (List.filter isTextPart ps)))
  /\ (forall m ps,
        msg_parts m = Some ps ->
        join "" (map part_text (List.filter isTextPart ps)) = "" ->
        Manual.contentToResend_of m = default "" (msg_content m))
  /\ (forall m,
        msg_parts m = None ->
        Manual.contentToResend_of m = default "" (msg_content m)).
Proof.
  assert (forall c : option string,
            default "" (or_else c (Some "")) = default "" c) as Hcontent.
  { intros [c|]; [|reflexivity]. unfold or_else. simpl.
    destruct (String.eqb_spec c "") as [->|_]; reflexivity. }
  repeat apply conj.
  - intros env now [|c t]; reflexivity.
  - intros m ps Hps Hne. unfold Manual.contentToResend_of. rewrite Hps.
    cbn [option_map]. unfold or_else at 2. simpl truthy.
    apply String.eqb_neq in Hne. rewrite Hne. simpl negb. cbv iota.
    unfold or_else. simpl truthy. by rewrite Hne.
  - intros m ps Hps Hempty. unfold Manual.contentToResend_of. rewrite Hps.
    cbn [option_map]. rewrite Hempty. unfold or_else at 2. simpl truthy.
    cbv iota. apply Hcontent.
  - intros m Hps. unfold Manual.contentToResend_of. rewrite Hps.
    cbn [option_map]. unfold or_else at 2. simpl truthy. cbv iota.
    apply Hcontent.
Qed.

Lemma contentToResend_of_spec_witness :
  Manual.contentToResend_of
    {| msg_id := "m"; msg_role := "user"; msg_content := Some "plain";
       msg_parts := Some [mkPart "text" (Some "a"); mkPart "file" None;
                          mkPart "text" (Some "b")];
       msg_createdAt := None |}
  = "ab"
  /\ Manual.contentToResend_of
       {| msg_id := "m"; msg_role := "user"; msg_content := Some "plain";
          msg_parts := Some [mkPart "file" None];
          msg_createdAt := None |}
     = "plain"
  /\ Manual.contentToResend_of
       {| msg_id := "m"; msg_role := "user"; msg_content := None;
          msg_parts := None; msg_createdAt := None |}
     = "".
Proof.
  destruct contentToResend_of_spec as (_ & Htext & Hempty & Hnone).
  split; [|split].
  - refine (Htext
              {| msg_id := "m"; msg_role := "user";
                 msg_content := Some "plain";
                 msg_parts := Some [mkPart "text" (Some "a");
                                    mkPart "file" None;
                                    mkPart "text" (Some "b")];
                 msg_createdAt := None |}
              [mkPart "text" (Some "a"); mkPart "file" None;
               mkPart "text" (Some "b")] eq_refl _).
    discriminate.
  - exact (Hempty
             {| msg_id := "m"; msg_role := "user"; msg_content := Some "plain";
                msg_parts := Some [mkPart "file" None];
                msg_createdAt := None |}
             [mkPart "file" None] eq_refl eq_refl).
  - exact (Hnone
             {| msg_id := "m"; msg_role := "user"; msg_content := None;
                msg_parts := None; msg_createdAt := None |}
             eq_refl).
Defined.

(** X7.  After a manual edit-and-regenerate (chat id set, target found,
    generator not repeating the edited id) no message of the local log has
    the edited id any more, so editing the same id again on that log is a
    structural error: one notification and nothing else. *)
Theorem manual_edit_drops_id env id now pre target post text :
  id <> "" ->
  Forall (fun m => msg_id m <> msg_id target) pre ->
  env_generateId env 0 <> msg_id target ->
  let log := pre ++ target :: post in
  let w := after (Manual.handleUpdateAndReloadMessage env id log
                    (msg_id target) text)
                 (initial log now) in
  length (w_messages w) = S (length pre)
  /\ take (length pre) (w_messages w) = pre
  /\ Forall (fun m => msg_id m <> msg_id target) (w_messages w)
  /\ (forall now' text',
        aborted (w_messages w)
          (after (Manual.handleUpdateAndReloadMessage env id (w_messages w)
                    (msg_id target) text')
                 (initial (w_messages w) now'))).
Proof.
  intros Hid Hpre Hgen. cbv zeta. unfold after.
  rewrite manual_edit_run;
    [|done|by apply absent_hasId|unfold hasId; apply String.eqb_refl].
  cbn [snd w_messages].
  assert (Forall (fun m => msg_id m <> msg_id target)
            (pre ++ [fresh_user_message env now text])) as Hgone.
  { apply Forall_app. split; [done|]. by repeat constructor. }
  split; [rewrite length_app; simpl; lia|].
  split; [by rewrite take_app_length|]. split; [done|].
  intros now' text'.
  rewrite manual_edit_missing by (by try apply absent_hasId).
  apply aborted_toast_console.
Qed.

Lemma manual_edit_drops_id_witness :
  let w := after (Manual.handleUpdateAndReloadMessage
                    (sample_env Resolved Resolved Resolved) "c"
                    [U1; A1; U2; A2] "u2" "X")
                 (initial [U1; A1; U2; A2] 99) in
  length (w_messages w) = 3%nat
  /\ take 2 (w_messages w) = [U1; A1]
  /\ Forall (fun m => msg_id m <> "u2") (w_messages w)
  /\ (forall now' text',
        aborted (w_messages w)
          (after (Manual.handleUpdateAndReloadMessage
                    (sample_env Resolved Resolved Resolved) "c"
                    (w_messages w) "u2" text')
                 (initial (w_messages w) now'))).
Proof.
  apply (manual_edit_drops_id (sample_env Resolved Resolved Resolved) "c" 99
           [U1; A1] U2 [A2] "X").
  - discriminate.
  - repeat constructor; discriminate.
  - discriminate.
Defined.



(** ** Editing under the server-delegated strategy *)

(** X9.  Server-delegated edits of one id compose: editing again, on the
    log the first edit left, gives the log a single edit with the second
    text gives.  So the last text wins and repeating an edit changes
    nothing.  This holds for every chat id and whether or not the id is in
    the log. *)
Theorem delegated_edit_last_wins env id log eid t1 t2 now1 now2 :
  let log1 :=
    w_messages (after (Delegated.handleUpdateAndReloadMessage env id eid t1)
                      (initial log now1)) in
  w_messages (after (Delegated.handleUpdateAndReloadMessage env id eid t2)
                    (initial log1 now2))
  = w_messages (after (Delegated.handleUpdateAndReloadMessage env id eid t2)
                      (initial log now2)).
Proof.
  cbv zeta. unfold after.
  destruct (decide (id = "")) as [->|Hid].
  { by rewrite !delegated_edit_no_chat. }
  destruct (first_match (hasId eid) log)
    as [Hno | (pre & target & post & -> & Hpre & Htarget)].
  - rewrite (delegated_edit_missing env id now1 log) by done.
    cbn [snd w_messages]. reflexivity.
  - pose proof (delegated_edit_run env id now1 pre target post eid t1
                  Hid Hpre Htarget) as H1.
    cbv zeta in H1. rewrite H1. cbn [snd w_messages].
    assert (hasId eid (with_parts target [text_part t1]) = true) as Htarget1
      by exact Htarget.
    pose proof (delegated_edit_run env id now2 pre _ post eid t2
                  Hid Hpre Htarget1) as H2.
    pose proof (delegated_edit_run env id now2 pre target post eid t2
                  Hid Hpre Htarget) as H3.
    cbv zeta in H2, H3. rewrite H2, H3. reflexivity.
Qed.

(** ** Notifications *)

Lemma toasts_remote_steps env id pivot edited console toast :
  (length (toasts (remote_steps env id pivot edited console toast)) <= 1)%nat
  /\ (toasts (remote_steps env id pivot edited console toast) = [] ->
      env_deleteTrailingMessages env id pivot = Resolved
      /\ env_reload env edited = Resolved
      /\ remote_steps env id pivot edited console toast
         = [DeleteTrailingMessages id pivot; Reload edited]).
Proof.
  unfold remote_steps, report.
  destruct (env_deleteTrailingMessages env id pivot);
    [|split; [simpl; lia | discriminate]].
  destruct (env_reload env edited);
    (split; [simpl; lia | try discriminate]).
  by intros _.
Qed.

Lemma toasts_regenerate_steps env mid log console toast :
  (length (toasts (regenerate_steps env mid log console toast)) <= 1)%nat.
Proof.
  unfold regenerate_steps, report.
  destruct (env_regenerate env mid log); simpl; lia.
Qed.

(** The runs of the two manual handlers, whatever the input. *)
Lemma manual_edit_cases env id log now eid text :
  (exists t c,
     snd (Manual.handleUpdateAndReloadMessage env id log eid text
            (initial log now))
     = {| w_messages := log; w_generated := 0; w_now := now;
          w_events := [ToastError t; ConsoleError c None] |})
  \/ (exists edited pivot c t,
        snd (Manual.handleUpdateAndReloadMessage env id log eid text
               (initial log now))
        = {| w_messages := edited; w_generated := 1; w_now := now;
             w_events :=
               SetMessages edited :: remote_steps env id pivot edited c t |}).
Proof.
  destruct (decide (id = "")) as [->|Hid].
  { left. rewrite manual_edit_no_chat. by eexists _, _. }
  destruct (first_match (hasId eid) log)
    as [Hno | (pre & target & post & -> & Hpre & Htarget)].
  - left. rewrite manual_edit_missing by done. by eexists _, _.
  - right. pose proof (manual_edit_run env id now pre target post eid text
                         Hid Hpre Htarget) as Hrun.
    cbv zeta in Hrun. rewrite Hrun. by eexists _, _, _, _.
Qed.

Lemma manual_reload_cases env id log now fid :
  (exists t l,
     snd (Manual.handleReloadFrom env id log fid (initial log now))
     = {| w_messages := log; w_generated := 0; w_now := now;
          w_events := ToastError t :: l |}
     /\ toasts l = [])
  \/ (exists edited pivot c t,
        snd (Manual.handleReloadFrom env id log fid (initial log now))
        = {| w_messages := edited; w_generated := 1; w_now := now;
             w_events :=
               SetMessages edited :: remote_steps env id pivot edited c t |}).
Proof.
  destruct (decide (id = "")) as [->|Hid].
  { left. rewrite manual_reload_no_chat. by eexists _, [] . }
  destruct (first_match (hasId fid) log)
    as [Hno | (pre & follower & post & -> & Hpre & Hfollower)].
  - left. rewrite manual_reload_no_predecessor;
      [|done|rewrite findIndex_none by done; lia].
    by eexists _, [_].
  - destruct pre as [|target pre _] using rev_ind.
    + left. rewrite manual_reload_no_predecessor;
        [|done|rewrite findIndex_first by done; simpl; lia].
      by eexists _, [_].
    + rewrite <- app_assoc. cbn [app].
      destruct (isUser target) eqn:Hrole.
      * right.
        pose proof (manual_reload_run env id now pre target follower post
                      fid Hid Hpre Hfollower Hrole) as Hrun.
        cbv zeta in Hrun. rewrite Hrun. by eexists _, _, _, _.
      * left.
        pose proof (manual_reload_wrong_role env id now pre target follower
                      post fid Hid Hpre Hfollower Hrole) as Hrun.
        cbv zeta in Hrun. rewrite Hrun. by eexists _, [_].
Qed.

(** X10.  No invocation of any of the four handlers raises more than one
    error toast, whatever the log, the chat id, the target and the answers
    of the store and the transport. *)
Theorem at_most_one_toast env id log now :
  (forall eid text,
     (length (toasts (w_events
        (after (Manual.handleUpdateAndReloadMessage env id log eid text)
               (initial log now)))) <= 1)%nat)
  /\ (forall fid,
        (length (toasts (w_events
           (after (Manual.handleReloadFrom env id log fid)
                  (initial log now)))) <= 1)%nat)
  /\ (forall eid text,
        (length (toasts (w_events
           (after (Delegated.handleUpdateAndReloadMessage env id eid text)
                  (initial log now)))) <= 1)%nat)
  /\ (forall fid,
        (length (toasts (w_events
           (after (Delegated.handleReloadFrom env id fid)
                  (initial log now)))) <= 1)%nat).
Proof.
  repeat apply conj.
  - intros eid text. unfold after.
    destruct (manual_edit_cases env id log now eid text)
      as [(t & c & ->) | (edited & pivot & c & t & ->)];
      cbn [w_events]; [simpl; lia|].
    change (toasts (SetMessages ?e :: ?r)) with (toasts r).
    apply toasts_remote_steps.
  - intros fid. unfold after.
    destruct (manual_reload_cases env id log now fid)
      as [(t & l & -> & Hl) | (edited & pivot & c & t & ->)];
      cbn [w_events].
    + change (toasts (ToastError t :: l)) with (ToastError t :: toasts l).
      rewrite Hl. simpl. lia.
    + change (toasts (SetMessages ?e :: ?r)) with (toasts r).
      apply toasts_remote_steps.
  - intros eid text. unfold after.
    destruct (decide (id = "")) as [->|Hid].
    { rewrite delegated_edit_no_chat. simpl. lia. }
    destruct (first_match (hasId eid) log)
      as [Hno | (pre & target & post & -> & Hpre & Htarget)].
    + rewrite delegated_edit_missing by done. cbn [snd w_events].
      change (toasts (SetMessages ?e :: ?r)) with (toasts r).
      apply toasts_regenerate_steps.
    + pose proof (delegated_edit_run env id now pre target post eid text
                    Hid Hpre Htarget) as Hrun.
      cbv zeta in Hrun. rewrite Hrun. cbn [snd w_events].
      change (toasts (SetMessages ?e :: ?r)) with (toasts r).
      apply toasts_regenerate_steps.
  - intros fid. unfold after.
    destruct (decide (id = "")) as [->|Hid].
    { rewrite delegated_reload_no_chat. simpl. lia. }
    rewrite delegated_reload_run by done. cbn [snd w_events].
    apply toasts_regenerate_steps.
Qed.

(** X11.  A manual edit-and-regenerate or reload-from that raised no toast
    did all three steps and both remote calls resolved: its events are the
    local update, the truncation request and the reload request, in that
    order, and one identifier was generated. *)
Theorem manual_silent_run_succeeded env id log now :
  (forall eid text,
     let w := after (Manual.handleUpdateAndReloadMessage env id log eid text)
                    (initial log now) in
     toasts (w_events w) = [] ->
     exists pivot,
       w_events w
       = [SetMessages (w_messages w); DeleteTrailingMessages id pivot;
          Reload (w_messages w)]
       /\ env_deleteTrailingMessages env id pivot = Resolved
       /\ env_reload env (w_messages w) = Resolved
       /\ w_generated w = 1%nat)
  /\ (forall fid,
        let w := after (Manual.handleReloadFrom env id log fid)
                       (initial log now) in
        toasts (w_events w) = [] ->
        exists pivot,
          w_events w
          = [SetMessages (w_messages w); DeleteTrailingMessages id pivot;
             Reload (w_messages w)]
          /\ env_deleteTrailingMessages env id pivot = Resolved
          /\ env_reload env (w_messages w) = Resolved
          /\ w_generated w = 1%nat).
Proof.
  split.
  - intros eid text. cbv zeta. unfold after.
    destruct (manual_edit_cases env id log now eid text)
      as [(t & c & ->) | (edited & pivot & c & t & ->)];
      cbn [w_events w_messages w_generated]; [done|].
    change (toasts (SetMessages ?e :: ?r)) with (toasts r).
    intros (Hdel & Hrel & ->)%toasts_remote_steps. by exists pivot.
  - intros fid. cbv zeta. unfold after.
    destruct (manual_reload_cases env id log now fid)
      as [(t & l & -> & Hl) | (edited & pivot & c & t & ->)];
      cbn [w_events w_messages w_generated]; [done|].
    change (toasts (SetMessages ?e :: ?r)) with (toasts r).
    intros (Hdel & Hrel & ->)%toasts_remote_steps. by exists pivot.
Qed.

Lemma manual_silent_run_succeeded_witness :
  exists pivot,
    w_events
      (after (Manual.handleReloadFrom (sample_env Resolved Resolved Resolved)
                "c" [U1; A1; U2; A2] "a2")
             (initial [U1; A1; U2; A2] 99))
    = [SetMessages [U1; A1; resent_U2]; DeleteTrailingMessages "c" pivot;
       Reload [U1; A1; resent_U2]]
    /\ Resolved = Resolved /\ Resolved = Resolved /\ 1%nat = 1%nat.
Proof.
  apply (proj2 (manual_silent_run_succeeded
                  (sample_env Resolved Resolved Resolved) "c"
                  [U1; A1; U2; A2] 99) "a2").
  reflexivity.
Defined.

(** X12.  Without a chat id none of the four handlers does anything but
    notify: whatever the log and the target, the log is left as it is, one
    toast is raised, and there is no local update, no truncation request
    and no transport request. *)
Theorem no_chat_id_only_notifies env log now :
  (forall eid text,
     aborted log
       (after (Manual.handleUpdateAndReloadMessage env "" log eid text)
              (initial log now)))
  /\ (forall fid,
        aborted log
          (after (Manual.handleReloadFrom env "" log fid) (initial log now)))
  /\ (forall eid text,
        aborted log
          (after (Delegated.handleUpdateAndReloadMessage env "" eid text)
                 (initial log now)))
  /\ (forall fid,
        aborted log
          (after (Delegated.handleReloadFrom env "" fid) (initial log now))).
Proof.
  repeat apply conj; intros; unfold after.
  - rewrite manual_edit_no_chat. apply aborted_toast_console.
  - rewrite manual_reload_no_chat. apply aborted_toast.
  - rewrite delegated_edit_no_chat. apply aborted_toast_console.
  - rewrite delegated_reload_no_chat. apply aborted_toast.
Qed.

(** ** Request bodies *)

(** X13.  Every trigger other than [regenerate-assistant-message] takes the
    default branch: the body is labelled [submit-user-message], whatever
    the trigger was, and carries the chat id, the message id passed in and
    the last message of the log (none for an empty log). *)
Theorem prepareSendMessagesRequest_default id log trigger messageId :
  trigger <> "regenerate-assistant-message" ->
  Delegated.prepareSendMessagesRequest id log trigger messageId
  = {| body_trigger := "submit-user-message";
       body_chatId := id;
       body_messageId := messageId;
       body_message := last log |}.
Proof.
  intros Hne%String.eqb_neq. unfold Delegated.prepareSendMessagesRequest.
  rewrite Hne. by rewrite at_index_last.
Qed.

Lemma prepareSendMessagesRequest_default_witness :
  Delegated.prepareSendMessagesRequest "c" [U1; A1] "submit-tool-result" None
  = {| body_trigger := "submit-user-message";
       body_chatId := "c";
       body_messageId := None;
       body_message := Some A1 |}.
Proof.
  apply (prepareSendMessagesRequest_default "c" [U1; A1]
           "submit-tool-result" None).
  discriminate.
Defined.

(** X14.  Edit, then regenerate, under the server-delegated strategy: the
    request built from the log the edit left, for the edited id, carries
    the message with its new text when the edited message is a user
    message, and carries no message when it has another role. *)
Theorem edited_message_is_sent env id now pre target post text :
  id <> "" ->
  Forall (fun m => msg_id m <> msg_id target) pre ->
  let log := pre ++ target :: post in
  let w := after (Delegated.handleUpdateAndReloadMessage env id
                    (msg_id target) text)
                 (initial log now) in
  let b := Delegated.prepareSendMessagesRequest id (w_messages w)
             "regenerate-assistant-message" (Some (msg_id target)) in
  body_messageId b = Some (msg_id target)
  /\ body_message b
     = if isUser target
       then Some (with_parts target [text_part text])
       else None.
Proof.
  intros Hid Hpre%absent_hasId. cbv zeta. unfold after.
  rewrite delegated_edit_run;
    [|done|done|unfold hasId; apply String.eqb_refl].
  cbn [snd w_messages]. unfold Delegated.prepareSendMessagesRequest.
  cbn [String.eqb Ascii.eqb Bool.eqb andb body_messageId body_message].
  split; [reflexivity|].
  rewrite (find_first (Delegated.idIs (Some (msg_id target))) pre
             (with_parts target [text_part text]) post);
    [reflexivity|exact Hpre|].
  simpl. unfold hasId. apply String.eqb_refl.
Qed.

Lemma edited_message_is_sent_witness :
  let w := after (Delegated.handleUpdateAndReloadMessage
                    (sample_env Resolved Resolved Resolved) "c" "u2" "X")
                 (initial [U1; A1; U2; A2] 99) in
  let b := Delegated.prepareSendMessagesRequest "c" (w_messages w)
             "regenerate-assistant-message" (Some "u2") in
  body_messageId b = Some "u2"
  /\ body_message b = Some (with_parts U2 [text_part "X"]).
Proof.
  apply (edited_message_is_sent (sample_env Resolved Resolved Resolved)
           "c" 99 [U1; A1] U2 [A2] "X").
  - discriminate.
  - repeat constructor; discriminate.
Defined.

(** X15.  Manual strategy: the request body built from the log that an
    edit-and-regenerate or a reload-from left carries the chat id and, as
    its one message, the user message the handler has just created. *)
Theorem manual_request_carries_new_message env id now :
  (forall pre target post text,
     id <> "" ->
     Forall (fun m => msg_id m <> msg_id target) pre ->
     let log := pre ++ target :: post in
     let w := after (Manual.handleUpdateAndReloadMessage env id log
                       (msg_id target) text)
                    (initial log now) in
     experimental_prepareRequestBody id (w_messages w)
     = {| mb_id := id;
          mb_message := Some (fresh_user_message env now text) |})
  /\ (forall pre target follower post,
        id <> "" ->
        Forall (fun m => msg_id m <> msg_id follower) (pre ++ [target]) ->
        isUser target = true ->
        let log := pre ++ target :: follower :: post in
        let w := after (Manual.handleReloadFrom env id log (msg_id follower))
                       (initial log now) in
        experimental_prepareRequestBody id (w_messages w)
        = {| mb_id := id;
             mb_message :=
               Some (fresh_user_message env now
                       (Manual.contentToResend_of target)) |}).
Proof.
  split.
  - intros pre target post text Hid Hpre%absent_hasId. cbv zeta.
    unfold after.
    rewrite manual_edit_run;
      [|done|done|unfold hasId; apply String.eqb_refl].
    cbn [snd w_messages]. unfold experimental_prepareRequestBody.
    by rewrite at_index_last, last_snoc.
  - intros pre target follower post Hid Hpre%absent_hasId Huser. cbv zeta.
    unfold after.
    rewrite manual_reload_run;
      [|done|done|unfold hasId; apply String.eqb_refl|done].
    cbn [snd w_messages]. unfold experimental_prepareRequestBody.
    by rewrite at_index_last, last_snoc.
Qed.

Lemma manual_request_carries_new_message_witness :
  experimental_prepareRequestBody "c"
    (w_messages
       (after (Manual.handleUpdateAndReloadMessage
                 (sample_env Resolved Resolved Resolved) "c"
                 [U1; A1; U2; A2] "u2" "X")
              (initial [U1; A1; U2; A2] 99)))
  = {| mb_id := "c"; mb_message := Some sample_with_text |}.
Proof.
  apply (proj1 (manual_request_carries_new_message
                  (sample_env Resolved Resolved Resolved) "c" 99)
           [U1; A1] U2 [A2] "X").
  - discriminate.
  - repeat constructor; discriminate.
Defined.

(** ** Conversion for the store *)

Lemma convert_parts_nil_iff JSON_stringify message :
  db_parts (convertMessageForDB JSON_stringify message) = []
  <-> cm_content message = CNull \/ cm_content message = CUndefined.
Proof.
  unfold convertMessageForDB. cbn [db_parts].
  destruct (cm_content message) as [| |s|ps|o];
    try (split; [done | by intros [?|?]]); try (split; auto; fail).
  destruct (0 <? Z.of_nat _) eqn:E; [|split; [done | by intros [?|?]]].
  split; [|by intros [?|?]].
  intros Hnil. apply (f_equal length) in Hnil. simpl in Hnil.
  apply Z.ltb_lt in E. lia.
Qed.

(** X16.  [convertMessageForDB] gives no parts only for [null] or
    [undefined] content.  For an array it gives as many parts as the array
    has text-typed entries, and one part when it has none. *)
Theorem convertMessageForDB_parts_count (JSON_stringify : Content -> string)
    (message : CoreMessage) :
  (db_parts (convertMessageForDB JSON_stringify message) = []
   <-> cm_content message = CNull \/ cm_content message = CUndefined)
  /\ (forall ps,
        cm_content message = CArray ps ->
        length (db_parts (convertMessageForDB JSON_stringify message))
        = Nat.max 1 (length (List.filter isTextPart ps))).
Proof.
  unfold convertMessageForDB. cbn [db_parts].
  destruct (cm_content message) as [| |s|ps|o].
  - split; [split; auto | done].
  - split; [split; auto | done].
  - split; [split; [done | by intros [?|?]] | done].
  - rewrite length_map.
    destruct (Z.ltb_spec 0 (Z.of_nat (length (List.filter isTextPart ps))))
      as [Hlt|Hge].
    + split.
      * split; [|by intros [?|?]].
        intros Hnil. apply (f_equal length) in Hnil.
        rewrite length_map in Hnil. simpl in Hnil. lia.
      * intros ? [= <-]. rewrite length_map. lia.
    + split; [split; [done | by intros [?|?]]|].
      intros ? [= <-]. simpl. lia.
  - split; [split; [done | by intros [?|?]] | done].
Qed.

Lemma convertMessageForDB_parts_count_witness :
  length
    (db_parts
       (convertMessageForDB (fun _ => "<json>")
          (mkCoreMessage "assistant"
             (CArray [mkPart "text" (Some "a"); mkPart "tool-call" None;
                      mkPart "text" (Some "b")]))))
  = 2%nat.
Proof.
  apply (proj2 (convertMessageForDB_parts_count (fun _ => "<json>")
                  (mkCoreMessage "assistant"
                     (CArray [mkPart "text" (Some "a");
                              mkPart "tool-call" None;
                              mkPart "text" (Some "b")])))
           [mkPart "text" (Some "a"); mkPart "tool-call" None;
            mkPart "text" (Some "b")]).
  reflexivity.
Defined.

(** X17.  [convertMessagesForDB] neither drops nor reorders: the output has
    one record per input message, and the record at a position has the role
    of the message at that position and is without parts exactly when that
    message's content is [null] or [undefined]; converting a concatenation
    is concatenating the conversions. *)
Theorem convertMessagesForDB_pointwise (JSON_stringify : Content -> string)
    (messages more : list CoreMessage) :
  length (convertMessagesForDB JSON_stringify messages) = length messages
  /\ map db_role (convertMessagesForDB JSON_stringify messages)
     = map cm_role messages
  /\ (forall (i : nat) r,
        convertMessagesForDB JSON_stringify messages !! i = Some r ->
        exists m,
          messages !! i = Some m
          /\ db_role r = cm_role m
          /\ (db_parts r = []
              <-> cm_content m = CNull \/ cm_content m = CUndefined))
  /\ convertMessagesForDB JSON_stringify (messages ++ more)
     = convertMessagesForDB JSON_stringify messages
       ++ convertMessagesForDB JSON_stringify more.
Proof.
  unfold convertMessagesForDB. split; [apply length_map|]. split.
  - rewrite map_map. reflexivity.
  - split; [|apply map_app].
    intros i r Hr. rewrite list_lookup_fmap in Hr.
    destruct (messages !! i) as [m|]; [|done].
    injection Hr as <-. exists m. split; [done|]. split; [reflexivity|].
    apply convert_parts_nil_iff.
Qed.

Lemma convertMessagesForDB_pointwise_witness :
  exists m,
    [mkCoreMessage "user" (CString "hi"); mkCoreMessage "assistant" CNull]
      !! 1%nat = Some m
    /\ db_role {| db_role := "assistant"; db_parts := [] |} = cm_role m
    /\ (db_parts {| db_role := "assistant"; db_parts := [] |} = []
        <-> cm_content m = CNull \/ cm_content m = CUndefined).
Proof.
  apply (proj1 (proj2 (proj2
           (convertMessagesForDB_pointwise (fun _ => "<json>")
              [mkCoreMessage "user" (CString "hi");
               mkCoreMessage "assistant" CNull] [])))
           1%nat).
  reflexivity.
Defined.

(** ** Titles and text *)

Lemma substring_prefix k : forall s,
  String.prefix (String.substring 0 k s) s = true.
Proof.
  induction k as [|k IH]; intros [|c s]; simpl; try reflexivity.
  destruct (Ascii.ascii_dec c c) as [_|Hne]; [apply IH | by destruct Hne].
Qed.

Lemma substring_length k : forall s,
  String.length (String.substring 0 k s) = Nat.min k (String.length s).
Proof.
  induction k as [|k IH]; intros [|c s]; simpl; try reflexivity.
  by rewrite IH.
Qed.

Lemma substring_all k : forall s,
  (String.length s <= k)%nat -> String.substring 0 k s = s.
Proof.
  induction k as [|k IH]; intros [|c s]; simpl; intros Hle;
    try reflexivity; try lia.
  rewrite IH by lia. reflexivity.
Qed.

(** X18.  For content that is a non-empty string the title is the beginning
    of the content: a prefix of it, of length the smaller of [maxLength]
    (counted as 0 when negative) and the length of the content.  So a
    content within [maxLength] is the title unchanged, and a [maxLength] of
    0 or less gives the empty title. *)
Theorem extractTitleFromMessage_prefix message (maxLength : option Z) s :
  cm_content message = CString s ->
  s <> "" ->
  let n := default 100 maxLength in
  let title := extractTitleFromMessage message maxLength in
  String.prefix title s = true
  /\ String.length title = Nat.min (Z.to_nat n) (String.length s)
  /\ (Z.of_nat (String.length s) <= n -> title = s)
  /\ (n <= 0 -> title = "").
Proof.
  intros Hc Hs. cbv zeta. unfold extractTitleFromMessage, default_maxLength.
  rewrite Hc. simpl content_falsy. apply String.eqb_neq in Hs. rewrite Hs.
  unfold substring0. split; [apply substring_prefix|].
  split; [apply substring_length|]. split.
  - intros Hle. apply substring_all. lia.
  - intros Hle. replace (Z.to_nat (default 100 maxLength)) with 0%nat by lia.
    by destruct s.
Qed.

Lemma extractTitleFromMessage_prefix_witness :
  let title :=
    extractTitleFromMessage (mkCoreMessage "user" (CString "hello world"))
      (Some 5) in
  String.prefix title "hello world" = true
  /\ String.length title = Nat.min 5 11
  /\ (11 <= 5 -> title = "hello world")
  /\ (5 <= 0 -> title = "").
Proof.
  apply (extractTitleFromMessage_prefix
           (mkCoreMessage "user" (CString "hello world")) (Some 5)
           "hello world").
  - reflexivity.
  - discriminate.
Defined.

Lemma concat_app sep (l1 l2 : list string) :
  l1 <> [] -> l2 <> [] ->
  String.concat sep (l1 ++ l2)
  = String.concat sep l1 +:+ sep +:+ String.concat sep l2.
Proof.
  intros H1 H2. induction l1 as [|x l1 IH]; [done|].
  destruct l1 as [|y l1].
  - destruct l2 as [|z l2]; [done|]. reflexivity.
  - change ((x :: y :: l1) ++ l2) with (x :: y :: (l1 ++ l2)).
    rewrite !concat_cons2.
    change (y :: l1 ++ l2) with ((y :: l1) ++ l2).
    rewrite IH by done. by rewrite !append_assoc.
Qed.

Lemma getTextFromParts_concat ps :
  getTextFromParts (Some ps)
  = String.concat " "
      (map (fun p => default "" (part_text p)) (List.filter isTextPart ps)).
Proof. unfold getTextFromParts. by rewrite join_concat, map_map. Qed.

(** X19.  The text of two part lists put together: when both have a
    text-typed part it is the two texts with one space between them; when
    one of them has none it is the text of the other. *)
Theorem getTextFromParts_app (ps qs : list Part) :
  (Exists (fun p => isTextPart p = true) ps ->
   Exists (fun p => isTextPart p = true) qs ->
   getTextFromParts (Some (ps ++ qs))
   = getTextFromParts (Some ps) +:+ " " +:+ getTextFromParts (Some qs))
  /\ (Forall (fun p => isTextPart p = false) ps ->
      getTextFromParts (Some (ps ++ qs)) = getTextFromParts (Some qs))
  /\ (Forall (fun p => isTextPart p = false) qs ->
      getTextFromParts (Some (ps ++ qs)) = getTextFromParts (Some ps)).
Proof.
  assert (forall l : list Part,
            Forall (fun p => isTextPart p = false) l ->
            List.filter isTextPart l = []) as Hnone.
  { induction 1 as [|p l Hp _ IH]; simpl; [done|]. by rewrite Hp. }
  assert (forall l : list Part,
            Exists (fun p => isTextPart p = true) l ->
            map (fun p => default "" (part_text p)) (List.filter isTextPart l)
            <> []) as Hsome.
  { induction 1 as [p l Hp | p l _ IH]; simpl.
    - by rewrite Hp.
    - by destruct (isTextPart p). }
  rewrite !getTextFromParts_concat, List.filter_app, map_app.
  split; [|split].
  - intros Hp Hq. apply concat_app; by apply Hsome.
  - intros Hp. by rewrite (Hnone ps Hp).
  - intros Hq. rewrite (Hnone qs Hq). simpl. by rewrite app_nil_r.
Qed.

Lemma getTextFromParts_app_witness :
  getTextFromParts
    (Some ([text_part "a"; mkPart "file" None] ++ [text_part "b"]))
  = getTextFromParts (Some [text_part "a"; mkPart "file" None])
    +:+ " " +:+ getTextFromParts (Some [text_part "b"])
  /\ getTextFromParts (Some ([mkPart "file" None] ++ [text_part "b"]))
     = getTextFromParts (Some [text_part "b"]).
Proof.
  split.
  - apply (proj1 (getTextFromParts_app [text_part "a"; mkPart "file" None]
                    [text_part "b"])).
    + left. reflexivity.
    + left. reflexivity.
  - apply (proj1 (proj2 (getTextFromParts_app [mkPart "file" None]
                           [text_part "b"]))).
    repeat constructor.
Defined.

(** ** What the checks of [parts] leave open, and what they never admit *)

(** X20.  The checks constrain only the types [text], [reasoning], [file]
    and those beginning with [tool-]: a row of any other type (a
    [source-url], [source-document] or [data] part, say) is stored whatever
    its other columns hold, provided its tool state is null or one of the
    four values. *)
Theorem other_types_unconstrained r :
  row_type r <> "text" ->
  row_type r <> "reasoning" ->
  row_type r <> "file" ->
  like_tool (row_type r) = false ->
  (forall s, tool_state r = Some s -> is_tool_state s) ->
  accepted r = true.
Proof.
  intros Ht%String.eqb_neq Hr%String.eqb_neq Hf%String.eqb_neq Hl Hs.
  unfold accepted, text_text_required, reasoning_text_required,
    file_fields_required, tool_fields_required.
  rewrite Ht, Hr, Hf, Hl. simpl.
  rewrite andb_true_r. by apply tool_state_valid_iff.
Qed.

Lemma other_types_unconstrained_witness :
  accepted (with_file (blank_row "source-url") (Some "image/png") None None)
  = true.
Proof.
  apply other_types_unconstrained; try discriminate; reflexivity.
Defined.

(** X21.  A tool state outside the four values is never stored, whatever
    the type of the row and however complete its other columns are; and a
    row of a [tool-] type is stored exactly when its call id is present and
    its state is one of the four, as long as its type is none of [text],
    [reasoning] and [file] (which no [tool-] type is). *)
Theorem tool_state_always_checked r :
  (forall s, tool_state r = Some s -> ~ is_tool_state s -> accepted r = false)
  /\ (like_tool (row_type r) = true ->
      (accepted r = true
       <-> tool_toolCallId r <> None
           /\ exists s, tool_state r = Some s /\ is_tool_state s)).
Proof.
  split.
  - intros s Hs Hbad. unfold accepted.
    assert (tool_state_valid r = false) as ->.
    { destruct (tool_state_valid r) eqn:E; [|done].
      destruct Hbad. by apply (proj1 (tool_state_valid_iff r) E). }
    by rewrite andb_false_r.
  - intros Hl.
    assert (String.eqb (row_type r) "text" = false
            /\ String.eqb (row_type r) "reasoning" = false
            /\ String.eqb (row_type r) "file" = false) as (Ht & Hr & Hf).
    { unfold like_tool in Hl.
      repeat split; apply String.eqb_neq; intros E; rewrite E in Hl;
        discriminate. }
    unfold accepted, text_text_required, reasoning_text_required,
      file_fields_required, tool_fields_required.
    rewrite Ht, Hr, Hf, Hl. simpl.
    rewrite andb_true_iff, andb_true_iff, tool_state_valid_iff,
      !is_not_null_true.
    split.
    + intros (Hv & Hc & Hst). split; [done|].
      destruct (tool_state r) as [s|]; [|done]. exists s. split; [done|].
      by apply Hv.
    + intros (Hc & s & Hst & Hs). rewrite Hst. split; [|done].
      by intros ? [= <-].
Qed.

Lemma tool_state_always_checked_witness :
  accepted (with_tool (with_text (blank_row "text") (Some "hi"))
              None (Some "done"))
  = false
  /\ accepted (with_tool (blank_row "tool-search") (Some "call-1")
                 (Some "input-available"))
     = true.
Proof.
  split.
  - apply (proj1 (tool_state_always_checked _) "done"); [reflexivity|].
    unfold is_tool_state. intros [H|[H|[H|H]]]; discriminate.
  - apply (proj2 (tool_state_always_checked _)); [reflexivity|].
    split; [discriminate|]. exists "input-available".
    split; [reflexivity|]. right. left. reflexivity.
Defined.

(** ** Submitting from the input panel *)

Example onSubmit_sample :
  onSubmit (fun s => s) "c"
    {| p_input := "hi";
       p_uploadedFiles :=
         [mkUploaded "uploaded" "image/png" (Some "u") (Some "a.png") (Some "k");
          mkUploaded "uploading" "image/png" None (Some "b.png") None];
       p_pathname := "/" |}
  = ([SendMessage "user"
        [OutText "hi"; OutFile (Some "u") (Some "a.png") (Some "k") "image/png"];
      PushState "/search/c"],
     {| p_input := ""; p_uploadedFiles := []; p_pathname := "/" |}).
Proof. reflexivity. Qed.

(** X22.  [onSubmit] does nothing exactly when the trimmed input is empty
    and no file has finished uploading: then it emits nothing and leaves
    the input and the file list as they are; otherwise it sends. *)
Theorem onSubmit_blank trim id st :
  (trim (p_input st) = ""
   /\ Forall (fun f => uf_status f <> "uploaded") (p_uploadedFiles st))
  <-> onSubmit trim id st = ([], st).
Proof.
  unfold onSubmit.
  assert (List.filter isUploaded (p_uploadedFiles st) = []
          <-> Forall (fun f => uf_status f <> "uploaded") (p_uploadedFiles st))
    as Hfiles.
  { induction (p_uploadedFiles st) as [|f l IH]; simpl.
    - split; [constructor | done].
    - unfold isUploaded at 1.
      destruct (String.eqb_spec (uf_status f) "uploaded") as [E|E].
      + split; [done|]. intros H. inversion H. done.
      + rewrite IH. split.
        * intros H. by constructor.
        * intros H. by inversion H. }
  split.
  - intros [Hin Hno%Hfiles]. rewrite Hin, Hno. reflexivity.
  - simpl truthy.
    destruct (String.eqb_spec (trim (p_input st)) "") as [Hin|Hin]; simpl.
    + destruct (List.filter isUploaded (p_uploadedFiles st)) as [|f l] eqn:E.
      * intros _. split; [done|]. by apply Hfiles.
      * simpl. discriminate.
    + discriminate.
Qed.

(** X23.  When [onSubmit] sends, it sends one user message and never an
    empty one: its parts are the input as typed (not the trimmed input),
    present only when the trimmed input is not empty, followed by one file
    part for each file whose status is [uploaded], in order.  Afterwards
    the input is empty and the file list is empty, files still uploading
    included; the address is pushed only from the root path. *)
Theorem onSubmit_sends trim id st :
  onSubmit trim id st <> ([], st) ->
  let uploaded := List.filter isUploaded (p_uploadedFiles st) in
  exists parts,
    List.filter is_send (fst (onSubmit trim id st))
    = [SendMessage "user" parts]
    /\ parts <> []
    /\ parts
       = (if String.eqb (trim (p_input st)) "" then []
          else [OutText (p_input st)])
         ++ map file_part uploaded
    /\ p_input (snd (onSubmit trim id st)) = ""
    /\ p_uploadedFiles (snd (onSubmit trim id st)) = []
    /\ (forall url,
          PushState url ∈ fst (onSubmit trim id st) ->
          p_pathname st = "/" /\ url = "/search/" +:+ id).
Proof.
  unfold onSubmit. simpl truthy. cbv zeta.
  destruct (String.eqb (trim (p_input st)) "") eqn:Hin; simpl negb.
  - destruct (List.filter isUploaded (p_uploadedFiles st)) as [|f l] eqn:E;
      [simpl; done|].
    intros _. simpl. eexists. split.
    + destruct (String.eqb (p_pathname st) "/"); reflexivity.
    + split; [done|]. split; [reflexivity|]. split; [done|]. split; [done|].
      intros url.
      destruct (String.eqb_spec (p_pathname st) "/") as [Hp|Hp].
      * intros [?|[[= <-]|?%elem_of_nil]%elem_of_cons]%elem_of_cons; done.
      * intros [?|?%elem_of_nil]%elem_of_cons; done.
  - intros _. simpl. eexists. split.
    + destruct (String.eqb (p_pathname st) "/"); reflexivity.
    + split; [done|]. split; [reflexivity|]. split; [done|]. split; [done|].
      intros url.
      destruct (String.eqb_spec (p_pathname st) "/") as [Hp|Hp].
      * intros [?|[[= <-]|?%elem_of_nil]%elem_of_cons]%elem_of_cons; done.
      * intros [?|?%elem_of_nil]%elem_of_cons; done.
Qed.

Lemma onSubmit_sends_witness :
  exists parts,
    List.filter is_send
      (fst (onSubmit (fun s => s) "c"
              {| p_input := "  hi ";
                 p_uploadedFiles :=
                   [mkUploaded "uploading" "image/png" None None None];
                 p_pathname := "/search/c" |}))
    = [SendMessage "user" parts]
    /\ parts <> []
    /\ parts = [OutText "  hi "] ++ map file_part []
    /\ "" = ""
    /\ @nil UploadedFile = []
    /\ (forall url,
          PushState url ∈ [SendMessage "user" [OutText "  hi "]] ->
          "/search/c" = "/" /\ url = "/search/" +:+ "c").
Proof.
  apply (onSubmit_sends (fun s => s) "c"
           {| p_input := "  hi ";
              p_uploadedFiles :=
                [mkUploaded "uploading" "image/png" None None None];
              p_pathname := "/search/c" |}).
  discriminate.
Defined.

Lemma onSubmit_blank_witness :
  onSubmit (fun _ => "") "c"
    {| p_input := "   ";
       p_uploadedFiles := [mkUploaded "uploading" "image/png" None None None];
       p_pathname := "/" |}
  = ([],
     {| p_input := "   ";
        p_uploadedFiles := [mkUploaded "uploading" "image/png" None None None];
        p_pathname := "/" |}).
Proof.
  apply (proj1 (onSubmit_blank (fun _ => "") "c"
                  {| p_input := "   ";
                     p_uploadedFiles :=
                       [mkUploaded "uploading" "image/png" None None None];
                     p_pathname := "/" |})).
  split; [reflexivity|]. repeat constructor. discriminate.
Defined.

(** ** The view after a reconciliation *)

(** X24.  After a manual edit-and-regenerate the view shows the sections of
    the messages before the edited one, unchanged, and ends with one new
    section, led by the new user message and without assistant messages:
    the edited turn and every later turn are gone from the view. *)
Theorem view_after_manual_edit env id now pre target post text :
  id <> "" ->
  Forall (fun m => msg_id m <> msg_id target) pre ->
  let log := pre ++ target :: post in
  let w := after (Manual.handleUpdateAndReloadMessage env id log
                    (msg_id target) text)
                 (initial log now) in
  buildSections (w_messages w)
  = buildSections pre ++ [open_section (fresh_user_message env now text)]
  /\ scrollTarget (buildSections (w_messages w)) (w_messages w)
     = Some (env_generateId env 0).
Proof.
  intros Hid Hpre%absent_hasId. cbv zeta. unfold after.
  rewrite manual_edit_run;
    [|done|done|unfold hasId; apply String.eqb_refl].
  cbn [snd w_messages].
  rewrite snoc_user_section by reflexivity. split; [reflexivity|].
  unfold scrollTarget. rewrite at_index_last, last_snoc, length_app.
  simpl.
  destruct (Z.ltb_spec 0 (Z.of_nat (length (buildSections pre) + 1)));
    [reflexivity | lia].
Qed.

Lemma view_after_manual_edit_witness :
  let w := after (Manual.handleUpdateAndReloadMessage
                    (sample_env Resolved Resolved Resolved) "c"
                    [U1; A1; U2; A2] "u2" "X")
                 (initial [U1; A1; U2; A2] 99) in
  buildSections (w_messages w)
  = buildSections [U1; A1] ++ [open_section sample_with_text]
  /\ scrollTarget (buildSections (w_messages w)) (w_messages w) = Some "n0".
Proof.
  apply (view_after_manual_edit (sample_env Resolved Resolved Resolved)
           "c" 99 [U1; A1] U2 [A2] "X").
  - discriminate.
  - repeat constructor; discriminate.
Defined.

Lemma user_ids_with_parts (pre : list Message) target post ps :
  map msg_id (List.filter isUser (pre ++ with_parts target ps :: post))
  = map msg_id (List.filter isUser (pre ++ target :: post)).
Proof.
  rewrite !List.filter_app, !map_app. f_equal.
  cbn [List.filter]. change (isUser (with_parts target ps)) with (isUser target).
  by destruct (isUser target).
Qed.

(** X25.  A server-delegated edit leaves the view with the same sections in
    the same order under the same ids: the in-place update changes no
    message's id or role, for every chat id and every edited id. *)
Theorem view_ids_after_delegated_edit env id log now eid text :
  let w := after (Delegated.handleUpdateAndReloadMessage env id eid text)
                 (initial log now) in
  map sec_id (buildSections (w_messages w)) = map sec_id (buildSections log)
  /\ map msg_id (w_messages w) = map msg_id log
  /\ map msg_role (w_messages w) = map msg_role log.
Proof.
  cbv zeta. unfold after.
  destruct (decide (id = "")) as [->|Hid].
  { by rewrite delegated_edit_no_chat. }
  destruct (first_match (hasId eid) log)
    as [Hno | (pre & target & post & -> & Hpre & Htarget)].
  - by rewrite delegated_edit_missing.
  - pose proof (delegated_edit_run env id now pre target post eid text
                  Hid Hpre Htarget) as Hrun.
    cbv zeta in Hrun. rewrite Hrun. cbn [snd w_messages].
    rewrite !buildSections_sections_of, !sections_of_ids.
    split; [apply user_ids_with_parts|].
    by rewrite !map_app.
Qed.
